(** * TeachTheTeens: the solve pipeline and the practice round, verified

    A shallow embedding of the controller logic of the application:

    - [GeminiService]: the three client calls of [services/geminiService.ts]
      ([solveMathProblem], [generatePracticeQuestion], [gradeAnswer]);
    - [App]: the solver state of [App.tsx] with [processFile], [handleSolve]
      and [clearImage];
    - [SolutionDisplay]: the expression handed to the typesetter;
    - [PracticeMode]: [fetchQuestion], [handleDifficultyChange] and
      [handleSubmit] of [components/PracticeMode.tsx].

    An [async] handler is cut at its [await]s: each piece between two
    suspension points is a function on the component state, and the event
    loop is a step function picking which suspended handler resumes.  What the
    remote model answers is not computed here: it is the label of the event
    that settles the request. *)

From Stdlib Require Import String Ascii List Bool Arith Lia QArith.
Import ListNotations.
Close Scope Q_scope.
Open Scope string_scope.
Open Scope list_scope.
Set Warnings "-register-all".

(** ** JavaScript values and the string primitives the handlers use *)

Module JS.

(** A value as [JSON.parse] builds it, plus [undefined], which a property
    read yields for a missing key.  An object lists each key once. *)
Inductive Value : Type :=
| VUndefined
| VNull
| VBool (b : bool)
| VNum (q : Q)
| VStr (s : string)
| VArr (items : list Value)
| VObj (fields : list (string * Value)).

(** What a [throw] carries. *)
Inductive Error : Type :=
| Rejected (reason : string)      (* the request promise rejects *)
| ErrorMsg (message : string)     (* [new Error(message)] *)
| SyntaxError (text : string).    (* [JSON.parse] on text that is not JSON *)

(** ToBoolean. *)
Definition truthy (v : Value) : bool :=
  match v with
  | VUndefined | VNull => false
  | VBool b => b
  | VNum q => negb (Qeq_bool q 0%Q)
  | VStr s => negb (s =? "")
  | VArr _ | VObj _ => true
  end.

Definition truthy_string (s : string) : bool := negb (s =? "").

(** ToBoolean of a [string | null] (or [string | undefined]) variable. *)
Definition truthy_opt (o : option string) : bool :=
  match o with
  | Some s => truthy_string s
  | None => false
  end.

Fixpoint lookup (key : string) (fields : list (string * Value)) : Value :=
  match fields with
  | [] => VUndefined
  | (k, v) :: rest => if k =? key then v else lookup key rest
  end.

Fixpoint has_key (key : string) (fields : list (string * Value)) : bool :=
  match fields with
  | [] => false
  | (k, _) :: rest => (k =? key) || has_key key rest
  end.

(** [v.key] for a [v] that is neither [null] nor [undefined]; the names read
    in this program are own properties of parsed objects only. *)
Definition prop (key : string) (v : Value) : Value :=
  match v with
  | VObj fields => lookup key fields
  | _ => VUndefined
  end.

(** [key in v] for an object, false for anything else. *)
Definition has_prop (key : string) (v : Value) : bool :=
  match v with
  | VObj fields => has_key key fields
  | _ => false
  end.

(** [s.startsWith(p)]. *)
Definition startsWith (p s : string) : bool := String.prefix p s.

(** [s.split(sep)] for a one-character separator: never empty. *)
Fixpoint split (sep : ascii) (s : string) : list string :=
  match s with
  | EmptyString => [EmptyString]
  | String c rest =>
      if Ascii.eqb c sep then EmptyString :: split sep rest
      else match split sep rest with
           | [] => [String c EmptyString]
           | piece :: pieces => String c piece :: pieces
           end
  end.

(** [xs[i]], [undefined] past the end. *)
Definition index {A : Type} (xs : list A) (i : nat) : option A := nth_error xs i.

(** The white space [trim] strips, among the one-byte characters: tab, line
    feed, vertical tab, form feed, carriage return and space. *)
Definition is_space (c : ascii) : bool :=
  let n := nat_of_ascii c in
  (((9 <=? n) && (n <=? 13)) || (n =? 32))%nat.

(** A string stands for its UTF-8 bytes, so that the other white space of
    [trim] takes two or three of them.  Two: the no-break space U+00A0. *)
Definition is_space2 (c1 c2 : ascii) : bool :=
  ((nat_of_ascii c1 =? 194) && (nat_of_ascii c2 =? 160))%nat.

(** Three: U+1680, U+2000 to U+200A, the separators U+2028 and U+2029,
    U+202F, U+205F, U+3000 and the byte order mark U+FEFF. *)
Definition is_space3 (c1 c2 c3 : ascii) : bool :=
  let a := nat_of_ascii c1 in
  let b := nat_of_ascii c2 in
  let c := nat_of_ascii c3 in
  (((a =? 225) && (b =? 154) && (c =? 128))
   || ((a =? 226) && (b =? 128)
       && (((128 <=? c) && (c <=? 138)) || (c =? 168) || (c =? 169) || (c =? 175)))
   || ((a =? 226) && (b =? 129) && (c =? 159))
   || ((a =? 227) && (b =? 128) && (c =? 128))
   || ((a =? 239) && (b =? 187) && (c =? 191)))%nat.

Fixpoint trimStart (s : string) : string :=
  match s with
  | EmptyString => EmptyString
  | String c1 rest1 =>
      if is_space c1 then trimStart rest1
      else
        match rest1 with
        | EmptyString => s
        | String c2 rest2 =>
            if is_space2 c1 c2 then trimStart rest2
            else
              match rest2 with
              | EmptyString => s
              | String c3 rest3 =>
                  if is_space3 c1 c2 c3 then trimStart rest3 else s
              end
        end
  end.

(** What is left is cut where only white space follows; no white space
    begins inside a character, its later bytes lying between 128 and 191. *)
Fixpoint trimEnd (s : string) : string :=
  match s with
  | EmptyString => EmptyString
  | String c rest =>
      match trimStart s with
      | EmptyString => EmptyString
      | String _ _ => String c (trimEnd rest)
      end
  end.

Definition trim (s : string) : string := trimEnd (trimStart s).

End JS.

Import JS.

(** ** [types.ts] *)

Module Types.

Inductive ProcessingStage : Type :=
| idle | preprocessing | ocr | parsing | solving | complete | error.

Definition ProcessingStage_eqb (a b : ProcessingStage) : bool :=
  match a, b with
  | idle, idle | preprocessing, preprocessing | ocr, ocr | parsing, parsing
  | solving, solving | complete, complete | error, error => true
  | _, _ => false
  end.

Inductive Difficulty : Type := Easy | Medium | Hard.

Definition Difficulty_eqb (a b : Difficulty) : bool :=
  match a, b with
  | Easy, Easy | Medium, Medium | Hard, Hard => true
  | _, _ => false
  end.

(** The string a [Difficulty] is at run time. *)
Definition Difficulty_value (d : Difficulty) : Value :=
  match d with
  | Easy => VStr "Easy"
  | Medium => VStr "Medium"
  | Hard => VStr "Hard"
  end.

Definition is_string (v : Value) : bool :=
  match v with VStr _ => true | _ => false end.

Definition is_number (v : Value) : bool :=
  match v with VNum _ => true | _ => false end.

Definition is_array (v : Value) : bool :=
  match v with VArr _ => true | _ => false end.

(** [interface Step]: [rule] is optional. *)
Definition is_Step (v : Value) : bool :=
  match v with
  | VObj _ =>
      is_string (prop "latex" v) && is_string (prop "explanation" v)
      && match prop "rule" v with VUndefined | VStr _ => true | _ => false end
  | _ => false
  end.

(** [interface MathSolution], as a check on a run-time value.  The program
    never runs it: [as MathSolution] is erased by the compiler. *)
Definition is_MathSolution (v : Value) : bool :=
  match v with
  | VObj _ =>
      is_string (prop "originalLatex" v)
      && is_string (prop "cleanedLatex" v)
      && is_string (prop "problemType" v)
      && match prop "steps" v with VArr steps => forallb is_Step steps | _ => false end
      && is_string (prop "finalAnswer" v)
      && is_number (prop "confidence" v)
  | _ => false
  end.

End Types.

Import Types.

(** ** [services/geminiService.ts] *)

Module GeminiService.

(** What is sent to [ai.models.generateContent]. *)
Inductive Request : Type :=
| SolveRequest (mimeType data : option string)
| QuestionRequest (difficultyPrompt : string)
| GradeRequest (questionLatex : Value) (textAnswer : option string)
    (imageNotice : bool) (inlineData : option (string * string)).

(** How the request settles: the promise rejects, or resolves to a response
    whose [text] is a string or [undefined]. *)
Inductive Settled : Type :=
| Rejects (reason : string)
| Responds (text : option string).

(** How a call ends, with what it wrote to [console.error] on the way. *)
Inductive Outcome (A : Type) : Type :=
| Returned (a : A)
| Thrown (e : Error).
Arguments Returned {A} a.
Arguments Thrown {A} e.

Record Completion (A : Type) : Type := mkCompletion {
  logged : list Error;
  outcome : Outcome A
}.
Arguments mkCompletion {A} logged outcome.
Arguments logged {A} c.
Arguments outcome {A} c.

(** An [async] function with one [await]: it fails before asking anything,
    or sends [request] and goes on with [resume] once the request settles. *)
Inductive Call (A : Type) : Type :=
| Failed (e : Error)
| Awaiting (request : Request) (resume : Settled -> Completion A).
Arguments Failed {A} e.
Arguments Awaiting {A} request resume.

Definition requested {A : Type} (c : Call A) : option Request :=
  match c with
  | Failed _ => None
  | Awaiting r _ => Some r
  end.

(** The call run to its end against a given settlement. *)
Definition settle {A : Type} (c : Call A) (o : Settled) : Completion A :=
  match c with
  | Failed e => mkCompletion [] (Thrown e)
  | Awaiting _ resume => resume o
  end.

Section Client.

(** [JSON.parse]: [None] where it throws. *)
Variable JSON_parse : string -> option Value.

(** The tail shared by the three functions:
    [if (response.text) return JSON.parse(response.text); throw new Error(m)]
    inside [try], with [catch (error) { console.error(..., error); throw error }]. *)
Definition read_response (failure : string) (o : Settled) : Completion Value :=
  match o with
  | Rejects reason => mkCompletion [Rejected reason] (Thrown (Rejected reason))
  | Responds text =>
      match text with
      | Some t =>
          if truthy_string t then
            match JSON_parse t with
            | Some v => mkCompletion [] (Returned v)
            | None => mkCompletion [SyntaxError t] (Thrown (SyntaxError t))
            end
          else mkCompletion [ErrorMsg failure] (Thrown (ErrorMsg failure))
      | None => mkCompletion [ErrorMsg failure] (Thrown (ErrorMsg failure))
      end
  end.

Definition solveMathProblem (base64Image mimeType : option string) : Call Value :=
  Awaiting (SolveRequest mimeType base64Image) (read_response "No response text").

Definition easy_prompt : string :=
  "Generate a random simple algebra math practice problem suitable for beginners (e.g., linear equations, basic factorization, simple arithmetic).".

Definition hard_prompt : string :=
  "Generate a challenging random math practice problem suitable for advanced college level (e.g., Differential Equations, Complex Integrals, Eigenvalues/Eigenvectors, Multivariable Calculus).".

Definition medium_prompt : string :=
  "Generate a random math practice problem suitable for high school or early college level (e.g., Calculus limits/derivatives, quadratic equations, basic matrices).".

(** The [switch]: [case 'Medium'] shares its body with [default]. *)
Definition difficultyPrompt (difficulty : Value) : string :=
  match difficulty with
  | VStr d =>
      if d =? "Easy" then easy_prompt
      else if d =? "Hard" then hard_prompt
      else medium_prompt
  | _ => medium_prompt
  end.

Definition generatePracticeQuestion (difficulty : Value) : Call Value :=
  Awaiting (QuestionRequest (difficultyPrompt difficulty))
           (read_response "Failed to generate question").

(** [parts] holds the prompt, and the image in front of it when both
    [userAnswerImage] and [mimeType] are truthy. *)
Definition gradeAnswer (questionLatex : Value) (userAnswerText : string)
    (userAnswerImage mimeType : option string) : Call Value :=
  Awaiting
    (GradeRequest questionLatex
       (if truthy_string userAnswerText then Some userAnswerText else None)
       (truthy_opt userAnswerImage)
       (match userAnswerImage, mimeType with
        | Some data, Some mime =>
            if truthy_string data && truthy_string mime then Some (mime, data) else None
        | _, _ => None
        end))
    (read_response "Failed to grade").

End Client.

End GeminiService.

Import GeminiService.

(** ** [App.tsx]: the solver *)

Module App.

(** The four [useState] cells the solver reads and writes. *)
Record State : Type := mkState {
  image : option string;
  processingStage : ProcessingStage;
  solution : Value;              (* [VNull] is [null] *)
  error : option string
}.

Definition initial : State := mkState None idle VNull None.

Definition setImage (v : option string) (s : State) : State :=
  mkState v (processingStage s) (solution s) (error s).

Definition setProcessingStage (v : ProcessingStage) (s : State) : State :=
  mkState (image s) v (solution s) (error s).

Definition setSolution (v : Value) (s : State) : State :=
  mkState (image s) (processingStage s) v (error s).

Definition setError (v : option string) (s : State) : State :=
  mkState (image s) (processingStage s) (solution s) v.

(** A [File]: its MIME type and the data URL a [FileReader] makes of it. *)
Record File : Type := mkFile {
  file_type : string;
  file_dataURL : string
}.

(** A [handleSolve] suspended at one of its four [await]s.  [image] is the
    value the handler closed over when it was called. *)
Inductive Task : Type :=
| AfterPreprocessing (image : string)   (* the 1200 ms delay *)
| AfterOcr (image : string)             (* the 1500 ms delay *)
| AfterRequest (image : string)         (* [await solveMathProblem(...)] *)
| AfterSolving (result : Value).        (* the 1000 ms delay *)

(** The component with what is in flight around it. *)
Record World : Type := mkWorld {
  ui : State;
  readers : list File;        (* [readAsDataURL] started, [onload] not yet run *)
  tasks : list Task;          (* suspended [handleSolve] calls *)
  requests : list Request;    (* every request sent so far, oldest first *)
  console : list Error        (* every [console.error] so far, oldest first *)
}.

Definition start : World := mkWorld initial [] [] [] [].

Definition with_ui (f : State -> State) (w : World) : World :=
  mkWorld (f (ui w)) (readers w) (tasks w) (requests w) (console w).

Definition with_readers (f : list File -> list File) (w : World) : World :=
  mkWorld (ui w) (f (readers w)) (tasks w) (requests w) (console w).

Definition with_tasks (f : list Task -> list Task) (w : World) : World :=
  mkWorld (ui w) (readers w) (f (tasks w)) (requests w) (console w).

Definition send (r : Request) (w : World) : World :=
  mkWorld (ui w) (readers w) (tasks w) (requests w ++ [r]) (console w).

Definition console_error (es : list Error) (w : World) : World :=
  mkWorld (ui w) (readers w) (tasks w) (requests w) (console w ++ es).

Fixpoint remove_nth {A : Type} (i : nat) (xs : list A) : list A :=
  match xs, i with
  | [], _ => []
  | _ :: rest, O => rest
  | x :: rest, S j => x :: remove_nth j rest
  end.

Fixpoint replace_nth {A : Type} (i : nat) (y : A) (xs : list A) : list A :=
  match xs, i with
  | [], _ => []
  | _ :: rest, O => y :: rest
  | x :: rest, S j => x :: replace_nth j y rest
  end.

Definition invalid_image_message : string := "Please upload a valid image file.".

Definition failure_message : string :=
  "Failed to process image. Please try a clearer image or ensure it contains a valid math problem.".

(** [processFile]: the three resets, then the type check. *)
Definition processFile (file : File) (w : World) : World :=
  let w := with_ui (setSolution VNull) w in
  let w := with_ui (setError None) w in
  let w := with_ui (setProcessingStage idle) w in
  if negb (startsWith "image/" (file_type file)) then
    with_ui (setError (Some invalid_image_message)) w
  else
    with_readers (fun rs => rs ++ [file]) w.

(** [reader.onload] of the [i]-th reader in flight. *)
Definition reader_onload (i : nat) (w : World) : option World :=
  match index (readers w) i with
  | Some file =>
      Some (with_ui (setImage (Some (file_dataURL file)))
              (with_readers (remove_nth i) w))
  | None => None
  end.

Definition clearImage (w : World) : World :=
  let w := with_ui (setImage None) w in
  let w := with_ui (setSolution VNull) w in
  let w := with_ui (setProcessingStage idle) w in
  with_ui (setError None) w.

(** [image.split(',')[1]] and [image.split(';')[0].split(':')[1]]. *)
Definition base64Data (image : string) : option string :=
  index (split "," image) 1.

Definition mimeType (image : string) : option string :=
  match index (split ";" image) 0 with
  | Some head => index (split ":" head) 1
  | None => None
  end.

Section Solver.

Variable JSON_parse : string -> option Value.

(** The [catch] block of [handleSolve]. *)
Definition handleSolve_catch (e : Error) (w : World) : World :=
  let w := console_error [e] w in
  let w := with_ui (setProcessingStage Types.error) w in
  with_ui (setError (Some failure_message)) w.

(** [handleSolve] from its call to the first [await]. *)
Definition handleSolve (w : World) : World :=
  match image (ui w) with
  | Some img =>
      if truthy_string img then
        let w := with_ui (setError None) w in
        let w := with_ui (setProcessingStage preprocessing) w in
        with_tasks (fun ts => ts ++ [AfterPreprocessing img]) w
      else w
  | None => w
  end.

(** [handleSolve] from one [await] to the next, for the [i]-th suspended
    call.  A delay resumes with [None], the request with how it settled. *)
Definition handleSolve_resume (i : nat) (settled : option Settled) (w : World)
  : option World :=
  match index (tasks w) i, settled with
  | Some (AfterPreprocessing img), None =>
      let w := with_ui (setProcessingStage ocr) w in
      Some (with_tasks (replace_nth i (AfterOcr img)) w)
  | Some (AfterOcr img), None =>
      let w := with_ui (setProcessingStage parsing) w in
      match solveMathProblem JSON_parse (base64Data img) (mimeType img) with
      | Awaiting request _ =>
          Some (with_tasks (replace_nth i (AfterRequest img)) (send request w))
      | Failed e =>
          Some (handleSolve_catch e (with_tasks (remove_nth i) w))
      end
  | Some (AfterRequest img), Some o =>
      let done := settle (solveMathProblem JSON_parse (base64Data img) (mimeType img)) o in
      let w := console_error (logged done) w in
      match outcome done with
      | Returned result =>
          let w := with_ui (setProcessingStage solving) w in
          Some (with_tasks (replace_nth i (AfterSolving result)) w)
      | Thrown e =>
          Some (handleSolve_catch e (with_tasks (remove_nth i) w))
      end
  | Some (AfterSolving result), None =>
      let w := with_ui (setProcessingStage complete) w in
      let w := with_ui (setSolution result) w in
      Some (with_tasks (remove_nth i) w)
  | _, _ => None
  end.

(** What the page lets happen.  The Start button exists only while
    [image && processingStage === 'idle'], the clear button while [image];
    the file input is hidden and stays mounted. *)
Inductive Event : Type :=
| FileSelected (file : File)
| ReaderLoaded (i : nat)
| ClickSolve
| ClickClear
| TimerFired (i : nat)
| RequestSettled (i : nat) (o : Settled).

Definition step (w : World) (e : Event) : option World :=
  match e with
  | FileSelected file => Some (processFile file w)
  | ReaderLoaded i => reader_onload i w
  | ClickSolve =>
      if truthy_opt (image (ui w)) && ProcessingStage_eqb (processingStage (ui w)) idle
      then Some (handleSolve w) else None
  | ClickClear =>
      if truthy_opt (image (ui w)) then Some (clearImage w) else None
  | TimerFired i => handleSolve_resume i None w
  | RequestSettled i o => handleSolve_resume i (Some o) w
  end.

Fixpoint run (w : World) (es : list Event) : option World :=
  match es with
  | [] => Some w
  | e :: rest =>
      match step w e with
      | Some w' => run w' rest
      | None => None
      end
  end.

(** The worlds a run goes through, the first one included. *)
Fixpoint trace (w : World) (es : list Event) : option (list World) :=
  match es with
  | [] => Some [w]
  | e :: rest =>
      match step w e with
      | Some w' => option_map (cons w) (trace w' rest)
      | None => None
      end
  end.

(** No [ClickSolve] of the run happens while an earlier call is suspended. *)
Fixpoint exclusive (w : World) (es : list Event) : bool :=
  match es with
  | [] => true
  | e :: rest =>
      match e, tasks w with
      | ClickSolve, _ :: _ => false
      | _, _ =>
          match step w e with
          | Some w' => exclusive w' rest
          | None => true
          end
      end
  end.

(** One [handleSolve] from the click to its end, nothing else in between;
    [i] is the place the call takes among the suspended ones. *)
Definition solve_session (i : nat) (o : Settled) : list Event :=
  [ClickSolve; TimerFired i; TimerFired i; RequestSettled i o; TimerFired i].

(** The client throws on [o]. *)
Definition client_throws (o : Settled) : Prop :=
  exists e, outcome (read_response JSON_parse "No response text" o) = Thrown e.

End Solver.

(** The stages a run shows, one per world. *)
Definition stages (ws : list World) : list ProcessingStage :=
  map (fun w => processingStage (ui w)) ws.

(** What [processFile] leaves of the page before it looks at the file. *)
Definition cleared (s : State) : State := mkState (image s) idle VNull None.

(** What holds along a run in which sessions do not overlap: at most one
    call is suspended, nothing is published while it is, and a published
    solution goes with [complete]. *)
Definition one_session (w : World) : Prop :=
  (tasks w = [] \/ exists t, tasks w = [t])
  /\ (tasks w <> [] -> solution (ui w) = VNull)
  /\ (solution (ui w) <> VNull -> processingStage (ui w) = complete).

(** [{solution && processingStage === 'complete' && <SolutionDisplay .../>}] *)
Definition displayed_solution (s : State) : option Value :=
  if truthy (solution s) && ProcessingStage_eqb (processingStage s) complete
  then Some (solution s) else None.





End App.

(** ** [components/SolutionDisplay.tsx] *)

Module SolutionDisplay.

(** The [latex] handed to [MathRenderer] for the main card:
    [solution.cleanedLatex || solution.originalLatex]. *)
Definition main_latex (solution : Value) : Value :=
  let cleaned := prop "cleanedLatex" solution in
  if truthy cleaned then cleaned else prop "originalLatex" solution.

(** What React accepts as a child [{v}]: anything but a plain object, an
    array being rendered item by item. *)
Fixpoint renderable (v : Value) : bool :=
  match v with
  | VObj _ => false
  | VArr items =>
      (fix all (vs : list Value) : bool :=
         match vs with
         | [] => true
         | x :: rest => renderable x && all rest
         end) items
  | _ => true
  end.

(** One [StepItem]: its number, the rule badge when [step.rule] is truthy,
    the explanation and the expression handed to [MathRenderer]. *)
Record StepView : Type := mkStepView {
  step_index : nat;
  step_rule : option Value;
  step_explanation : Value;
  step_latex : Value
}.

(** The cards of [SolutionDisplay], the confidence figure left out. *)
Record View : Type := mkView {
  view_type : Value;
  view_main : Value;
  view_steps : list StepView;
  view_final : Value
}.

(** [<StepItem step={step} index={index} />]; [None] where rendering throws:
    a property read on [null] or [undefined], or an object as a child. *)
Definition StepItem (step : Value) (index : nat) : option StepView :=
  match step with
  | VNull | VUndefined => None
  | _ =>
      let rule := prop "rule" step in
      let explanation := prop "explanation" step in
      if (if truthy rule then renderable rule else true) && renderable explanation
      then Some (mkStepView index (if truthy rule then Some rule else None)
                   explanation (prop "latex" step))
      else None
  end.

(** [steps.map((step, idx) => <StepItem key={idx} step={step} index={idx + 1} />)],
    from position [idx] on. *)
Fixpoint StepItems (idx : nat) (steps : list Value) : option (list StepView) :=
  match steps with
  | [] => Some []
  | step :: rest =>
      match StepItem step (idx + 1), StepItems (S idx) rest with
      | Some item, Some items => Some (item :: items)
      | _, _ => None
      end
  end.

(** The component for a truthy [solution]; [solution.steps.map] throws
    unless [steps] is an array. *)
Definition render (solution : Value) : option View :=
  match prop "steps" solution with
  | VArr steps =>
      if renderable (prop "problemType" solution) then
        match StepItems 0 steps with
        | Some items =>
            Some (mkView (prop "problemType" solution) (main_latex solution)
                    items (prop "finalAnswer" solution))
        | None => None
        end
      else None
  | _ => None
  end.

End SolutionDisplay.

(** ** [components/PipelineVisualizer.tsx] *)

Module PipelineVisualizer.

(** The string a [ProcessingStage] is at run time. *)
Definition stage_name (stage : ProcessingStage) : string :=
  match stage with
  | idle => "idle"
  | preprocessing => "preprocessing"
  | ocr => "ocr"
  | parsing => "parsing"
  | solving => "solving"
  | complete => "complete"
  | Types.error => "error"
  end.

(** The [id]s of [steps], in order. *)
Definition step_ids : list string := ["preprocessing"; "ocr"; "parsing"; "solving"].

(** [xs.indexOf(x)]: [-1] when [x] is not there. *)
Fixpoint indexOf (x : string) (xs : list string) : Z :=
  match xs with
  | [] => (-1)%Z
  | y :: rest =>
      if y =? x then 0%Z
      else let i := indexOf x rest in
           if (i <? 0)%Z then (-1)%Z else (i + 1)%Z
  end.

(** The four class strings [getStatusColor] chooses from. *)
Inductive Status : Type :=
| Muted      (* [text-slate-300] *)
| Done       (* green *)
| Current    (* indigo, with a ring *)
| Pending.   (* [text-slate-400] on white *)

Definition getStatusColor (stage : ProcessingStage) (stepId : string) : Status :=
  let stages := ["idle"; "preprocessing"; "ocr"; "parsing"; "solving"; "complete"] in
  let currentIndex := indexOf (stage_name stage) stages in
  let stepIndex := indexOf stepId stages in
  if ProcessingStage_eqb stage Types.error then Muted
  else if ProcessingStage_eqb stage complete then Done
  else if (currentIndex >? stepIndex)%Z then Done
  else if (currentIndex =? stepIndex)%Z then Current
  else Pending.

(** One tile: its id, its colour, and [isActive]. *)
Definition Tile : Type := (string * Status * bool)%type.

(** The component: nothing at [idle] and at [error], the four tiles
    otherwise. *)
Definition render (stage : ProcessingStage) : option (list Tile) :=
  if ProcessingStage_eqb stage idle || ProcessingStage_eqb stage Types.error then None
  else Some (map (fun id => (id, getStatusColor stage id, stage_name stage =? id)) step_ids).

Definition status_of (t : Tile) : Status := snd (fst t).

Definition is_active (t : Tile) : bool := snd t.

(** How many of the four steps lie behind a stage. *)
Definition steps_behind (stage : ProcessingStage) : nat :=
  match stage with
  | idle | preprocessing | Types.error => 0
  | ocr => 1
  | parsing => 2
  | solving => 3
  | complete => 4
  end.

End PipelineVisualizer.

(** ** What a [FileReader] hands back *)

Module FileReader.

(** The result of [readAsDataURL] for a file of type [mime] whose bytes
    encode to [data] in base 64. *)
Definition readAsDataURL (mime data : string) : string :=
  "data:" ++ mime ++ ";base64," ++ data.

(** [s.includes(c)] for one character. *)
Fixpoint occurs (c : ascii) (s : string) : bool :=
  match s with
  | EmptyString => false
  | String d rest => Ascii.eqb d c || occurs c rest
  end.

End FileReader.

(** ** [components/PracticeMode.tsx]: the practice round *)

(** Each handler comes in two pieces, [_begin] up to its [await] and
    [_resume] from there on, and as the two run one after the other for a
    call that nothing interrupts. *)

Module PracticeMode.

Record State : Type := mkState {
  question : Value;              (* [QuizQuestion | null] *)
  loading : bool;
  userAnswer : string;
  answerImage : option string;
  grading : Value;               (* [GradingResult | null] *)
  isGrading : bool;
  difficulty : Difficulty
}.

Definition initial : State := mkState VNull false "" None VNull false Medium.

Definition setQuestion (v : Value) (s : State) : State :=
  mkState v (loading s) (userAnswer s) (answerImage s) (grading s) (isGrading s) (difficulty s).

Definition setLoading (v : bool) (s : State) : State :=
  mkState (question s) v (userAnswer s) (answerImage s) (grading s) (isGrading s) (difficulty s).

Definition setUserAnswer (v : string) (s : State) : State :=
  mkState (question s) (loading s) v (answerImage s) (grading s) (isGrading s) (difficulty s).

Definition setAnswerImage (v : option string) (s : State) : State :=
  mkState (question s) (loading s) (userAnswer s) v (grading s) (isGrading s) (difficulty s).

Definition setGrading (v : Value) (s : State) : State :=
  mkState (question s) (loading s) (userAnswer s) (answerImage s) v (isGrading s) (difficulty s).

Definition setIsGrading (v : bool) (s : State) : State :=
  mkState (question s) (loading s) (userAnswer s) (answerImage s) (grading s) v (difficulty s).

Definition setDifficulty (v : Difficulty) (s : State) : State :=
  mkState (question s) (loading s) (userAnswer s) (answerImage s) (grading s) (isGrading s) v.

(** The component, the requests it has sent, what it wrote to
    [console.error], and the rejections nothing caught. *)
Record World : Type := mkWorld {
  ui : State;
  requests : list Request;
  console : list Error;
  unhandled : list Error
}.

Definition start : World := mkWorld initial [] [] [].

Definition with_ui (f : State -> State) (w : World) : World :=
  mkWorld (f (ui w)) (requests w) (console w) (unhandled w).

Definition send (r : Request) (w : World) : World :=
  mkWorld (ui w) (requests w ++ [r]) (console w) (unhandled w).

Definition console_error (es : list Error) (w : World) : World :=
  mkWorld (ui w) (requests w) (console w ++ es) (unhandled w).

Definition unhandled_rejection (e : Error) (w : World) : World :=
  mkWorld (ui w) (requests w) (console w) (unhandled w ++ [e]).

Section Round.

Variable JSON_parse : string -> option Value.

(** Sends the request of a call that got as far as asking. *)
Definition ask {A : Type} (c : Call A) (w : World) : World :=
  match requested c with
  | Some r => send r w
  | None => w
  end.

(** *** [fetchQuestion] *)

(** Up to [await generatePracticeQuestion(difficulty)]. *)
Definition fetchQuestion_begin (w : World) : World :=
  let w := with_ui (setLoading true) w in
  let w := with_ui (setGrading VNull) w in
  let w := with_ui (setUserAnswer "") w in
  let w := with_ui (setAnswerImage None) w in
  ask (generatePracticeQuestion JSON_parse (Difficulty_value (difficulty (ui w)))) w.

(** From the [await] on: [try] body, [catch], [finally].  [asked] is the
    difficulty the call closed over. *)
Definition fetchQuestion_resume (asked : Difficulty) (o : Settled) (w : World) : World :=
  let done := settle (generatePracticeQuestion JSON_parse (Difficulty_value asked)) o in
  let w := console_error (logged done) w in
  let w := match outcome done with
           | Returned q => with_ui (setQuestion q) w
           | Thrown e => console_error [e] w
           end in
  with_ui (setLoading false) w.

(** One whole call, the request settling as [o]. *)
Definition fetchQuestion (o : Settled) (w : World) : World :=
  fetchQuestion_resume (difficulty (ui w)) o (fetchQuestion_begin w).

(** *** [handleDifficultyChange] *)

(** The synchronous part; the flag says whether a request was started. *)
Definition handleDifficultyChange_begin (level : Difficulty) (w : World) : World * bool :=
  if Difficulty_eqb (difficulty (ui w)) level then (w, false)
  else
    let s := ui w in
    let w := with_ui (setDifficulty level) w in
    if negb (truthy (grading s)) && negb (truthy_string (userAnswer s))
       && negb (truthy_opt (answerImage s))
    then
      let w := with_ui (setLoading true) w in
      (ask (generatePracticeQuestion JSON_parse (Difficulty_value level)) w, true)
    else (w, false).

(** The [.then] callback; a rejection has no handler. *)
Definition handleDifficultyChange_resume (level : Difficulty) (o : Settled) (w : World) : World :=
  let done := settle (generatePracticeQuestion JSON_parse (Difficulty_value level)) o in
  let w := console_error (logged done) w in
  match outcome done with
  | Returned q =>
      let w := with_ui (setQuestion q) w in
      with_ui (setLoading false) w
  | Thrown e => unhandled_rejection e w
  end.

Definition handleDifficultyChange (level : Difficulty) (o : Settled) (w : World) : World :=
  match handleDifficultyChange_begin level w with
  | (w', true) => handleDifficultyChange_resume level o w'
  | (w', false) => w'
  end.

(** *** [handleSubmit] *)

(** The arguments of [gradeAnswer], read from the state the handler closed over. *)
Definition grade_call (s : State) : Call Value :=
  let imageBase64 :=
    match answerImage s with
    | Some img => if truthy_string img then index (split "," img) 1 else None
    | None => None
    end in
  let mimeType :=
    match answerImage s with
    | Some img =>
        if truthy_string img then
          match index (split ";" img) 0 with
          | Some head => index (split ":" head) 1
          | None => None
          end
        else None
    | None => None
    end in
  gradeAnswer JSON_parse (prop "latex" (question s)) (userAnswer s) imageBase64 mimeType.

(** [!question || (!userAnswer.trim() && !answerImage)] *)
Definition handleSubmit_returns_early (s : State) : bool :=
  negb (truthy (question s))
  || (negb (truthy_string (trim (userAnswer s))) && negb (truthy_opt (answerImage s))).

Definition handleSubmit_begin (w : World) : World * bool :=
  if handleSubmit_returns_early (ui w) then (w, false)
  else
    let s := ui w in
    let w := with_ui (setIsGrading true) w in
    (ask (grade_call s) w, true).

Definition handleSubmit_resume (closure : State) (o : Settled) (w : World) : World :=
  let done := settle (grade_call closure) o in
  let w := console_error (logged done) w in
  let w := match outcome done with
           | Returned result => with_ui (setGrading result) w
           | Thrown e => console_error [e] w
           end in
  with_ui (setIsGrading false) w.

Definition handleSubmit (o : Settled) (w : World) : World :=
  match handleSubmit_begin w with
  | (w', true) => handleSubmit_resume (ui w) o w'
  | (w', false) => w'
  end.

(** *** The two controls that call [handleSubmit] *)

(** [disabled] of the send button. *)
Definition submit_disabled (s : State) : bool :=
  (negb (truthy_string (trim (userAnswer s))) && negb (truthy_opt (answerImage s)))
  || loading s || isGrading s || truthy (grading s).

(** [disabled] of the answer field, whose [onKeyDown] submits on Enter. *)
Definition input_disabled (s : State) : bool :=
  loading s || isGrading s || truthy (grading s).

Definition click_submit (o : Settled) (w : World) : World :=
  if submit_disabled (ui w) then w else handleSubmit o w.

Definition press_enter (o : Settled) (w : World) : World :=
  if input_disabled (ui w) then w else handleSubmit o w.

End Round.

(** The round as the page tests it: no grading to show, nothing typed, no
    picture: [!grading && !userAnswer && !answerImage]. *)
Definition unanswered (s : State) : Prop :=
  truthy (grading s) = false /\ userAnswer s = "" /\ truthy_opt (answerImage s) = false.

(** Nothing graded, nothing typed, no picture. *)
Definition untouched (s : State) : Prop :=
  grading s = VNull /\ userAnswer s = "" /\ answerImage s = None.

(** *** The answer picture *)

(** [handleImageSelect] on the files of the input: the file a reader is
    started on, if any.  Nothing else happens before [onload]. *)
Definition handleImageSelect (files : list App.File) : option App.File :=
  match files with
  | file :: _ =>
      if negb (startsWith "image/" (App.file_type file)) then None else Some file
  | [] => None
  end.

(** [reader.onload] of that reader. *)
Definition answer_reader_onload (file : App.File) (w : World) : World :=
  with_ui (setAnswerImage (Some (App.file_dataURL file))) w.

Definition removeImage (w : World) : World :=
  with_ui (setAnswerImage None) w.

(** The text holds white space only (or nothing). *)
Fixpoint only_spaces (s : string) : bool :=
  match s with
  | EmptyString => true
  | String c rest => is_space c && only_spaces rest
  end.

(** The text holds a one-byte character that is not white space. *)
Fixpoint has_visible (s : string) : bool :=
  match s with
  | EmptyString => false
  | String c rest =>
      (negb (is_space c) && (nat_of_ascii c <? 128)%nat) || has_visible rest
  end.

End PracticeMode.

(** ** Sample data *)

Module Samples.

Definition dq : string := String (ascii_of_nat 34) "".

Definition quoted (s : string) : string := dq ++ s ++ dq.

Fixpoint members (fields : list (string * string)) : string :=
  match fields with
  | [] => ""
  | [(k, v)] => quoted k ++ ":" ++ v
  | (k, v) :: rest => quoted k ++ ":" ++ v ++ "," ++ members rest
  end.

(** The JSON text of an object whose member values are already JSON text. *)
Definition object (fields : list (string * string)) : string :=
  "{" ++ members fields ++ "}".

(** A [MathSolution] with every field and no steps. *)
Definition conforming : Value :=
  VObj [("originalLatex", VStr "2x+3=7"); ("cleanedLatex", VStr "2x + 3 = 7");
        ("problemType", VStr "Algebra"); ("steps", VArr []);
        ("finalAnswer", VStr "x=2"); ("confidence", VNum (99 # 100))].

Definition conforming_text : string :=
  object [("originalLatex", quoted "2x+3=7"); ("cleanedLatex", quoted "2x + 3 = 7");
          ("problemType", quoted "Algebra"); ("steps", "[]");
          ("finalAnswer", quoted "x=2"); ("confidence", "0.99")].

(** The same without [finalAnswer]. *)
Definition no_finalAnswer : Value :=
  VObj [("originalLatex", VStr "2x+3=7"); ("cleanedLatex", VStr "2x + 3 = 7");
        ("problemType", VStr "Algebra"); ("steps", VArr []);
        ("confidence", VNum (99 # 100))].

Definition no_finalAnswer_text : string :=
  object [("originalLatex", quoted "2x+3=7"); ("cleanedLatex", quoted "2x + 3 = 7");
          ("problemType", quoted "Algebra"); ("steps", "[]");
          ("confidence", "0.99")].

(** [steps] is a string, not an array. *)
Definition steps_not_array : Value :=
  VObj [("originalLatex", VStr "2x+3=7"); ("cleanedLatex", VStr "2x + 3 = 7");
        ("problemType", VStr "Algebra"); ("steps", VStr "none");
        ("finalAnswer", VStr "x=2"); ("confidence", VNum (99 # 100))].

Definition steps_not_array_text : string :=
  object [("originalLatex", quoted "2x+3=7"); ("cleanedLatex", quoted "2x + 3 = 7");
          ("problemType", quoted "Algebra"); ("steps", quoted "none");
          ("finalAnswer", quoted "x=2"); ("confidence", "0.99")].

(** Every field, with [cleanedLatex] the empty string. *)
Definition blank_cleaned : Value :=
  VObj [("originalLatex", VStr "2x+3=7"); ("cleanedLatex", VStr "");
        ("problemType", VStr "Algebra"); ("steps", VArr []);
        ("finalAnswer", VStr "x=2"); ("confidence", VNum (99 # 100))].

(** The question and the grading of the scenario in the specification. *)
Definition q1 : Value :=
  VObj [("id", VStr "q1"); ("latex", VStr "2x+3=7");
        ("difficulty", VStr "Easy"); ("topic", VStr "Linear Equations")].

Definition q1_text : string :=
  object [("id", quoted "q1"); ("latex", quoted "2x+3=7");
          ("difficulty", quoted "Easy"); ("topic", quoted "Linear Equations")].

Definition graded : Value :=
  VObj [("isCorrect", VBool true); ("score", VNum (10 # 1));
        ("feedback", VStr "Correct!"); ("correctSolution", VStr "x=2")].

Definition graded_text : string :=
  object [("isCorrect", "true"); ("score", "10");
          ("feedback", quoted "Correct!"); ("correctSolution", quoted "x=2")].

Definition regraded : Value :=
  VObj [("isCorrect", VBool false); ("score", VNum (0 # 1));
        ("feedback", VStr "Wrong"); ("correctSolution", VStr "x=2")].

Definition regraded_text : string :=
  object [("isCorrect", "false"); ("score", "0");
          ("feedback", quoted "Wrong"); ("correctSolution", quoted "x=2")].

(** A stand-in for [JSON.parse]: right on the texts above, and refusing
    every other text. *)
Definition JSON_parse (t : string) : option Value :=
  if t =? conforming_text then Some conforming
  else if t =? no_finalAnswer_text then Some no_finalAnswer
  else if t =? steps_not_array_text then Some steps_not_array
  else if t =? q1_text then Some q1
  else if t =? graded_text then Some graded
  else if t =? regraded_text then Some regraded
  else None.

Definition png : App.File :=
  App.mkFile "image/png" "data:image/png;base64,iVBORw0KGgo=".

Definition jpeg : App.File :=
  App.mkFile "image/jpeg" "data:image/jpeg;base64,/9j/4AAQSkZJRg==".

Definition notes : App.File :=
  App.mkFile "text/plain" "data:text/plain;base64,aGVsbG8=".

(** The solver once [png] has been picked and read. *)
Definition png_loaded : App.World :=
  App.mkWorld (App.mkState (Some (App.file_dataURL png)) idle VNull None) [] [] [] [].

(** Two sessions overlapping: [png] is submitted, cleared while its request
    is out, [jpeg] is picked and submitted; the first request then comes back
    with a solution, and the second one is refused. *)
Definition overlapping : list App.Event :=
  [ App.FileSelected png; App.ReaderLoaded 0;
    App.ClickSolve; App.TimerFired 0; App.TimerFired 0;
    App.ClickClear;
    App.FileSelected jpeg; App.ReaderLoaded 0;
    App.ClickSolve; App.TimerFired 1; App.TimerFired 1;
    App.RequestSettled 0 (Responds (Some conforming_text)); App.TimerFired 0;
    App.RequestSettled 0 (Rejects "network") ].

(** One session, up to the point where its request is out. *)
Definition submitted : list App.Event :=
  [ App.FileSelected png; App.ReaderLoaded 0;
    App.ClickSolve; App.TimerFired 0; App.TimerFired 0 ].

Definition request_out : App.World :=
  App.mkWorld
    (App.mkState (Some (App.file_dataURL png)) parsing VNull None)
    [] [App.AfterRequest (App.file_dataURL png)]
    [SolveRequest (Some "image/png") (Some "iVBORw0KGgo=")] [].

(** A finished session: [conforming] is on the page. *)
Definition solved : App.World :=
  App.mkWorld
    (App.mkState (Some (App.file_dataURL png)) complete conforming None)
    [] [] [SolveRequest (Some "image/png") (Some "iVBORw0KGgo=")] [].

(** The practice round with [q1] on the page and nothing answered. *)
Definition fresh_round : PracticeMode.World :=
  PracticeMode.mkWorld
    (PracticeMode.mkState q1 false "" None VNull false Easy) [] [] [].

(** The same with [x=2] typed in. *)
Definition answered_round : PracticeMode.World :=
  PracticeMode.mkWorld
    (PracticeMode.mkState q1 false "x=2" None VNull false Easy) [] [] [].

(** The same once graded. *)
Definition graded_round : PracticeMode.World :=
  PracticeMode.mkWorld
    (PracticeMode.mkState q1 false "x=2" None graded false Easy) [] [] [].

End Samples.

Module MoreSamples.

(** [Samples.JSON_parse], knowing the text [null] as well. *)
Definition JSON_parse (t : string) : option Value :=
  if t =? "null" then Some VNull else Samples.JSON_parse t.

(** A solution with two steps, the second one naming its rule. *)
Definition two_steps : Value :=
  VObj [("originalLatex", VStr "2x+3=7"); ("cleanedLatex", VStr "2x + 3 = 7");
        ("problemType", VStr "Algebra");
        ("steps", VArr [VObj [("latex", VStr "2x=4"); ("explanation", VStr "Subtract 3")];
                        VObj [("latex", VStr "x=2"); ("explanation", VStr "Divide by 2");
                              ("rule", VStr "Division")]]);
        ("finalAnswer", VStr "x=2"); ("confidence", VNum (99 # 100))].

(** A photograph of handwritten work. *)
Definition scan : App.File :=
  App.mkFile "image/jpeg" (FileReader.readAsDataURL "image/jpeg" "/9j/4AAQSkZJRg==").

(** [q1] on the page, and only spaces typed. *)
Definition spaces_typed : PracticeMode.World :=
  PracticeMode.mkWorld
    (PracticeMode.mkState Samples.q1 false "   " None VNull false Easy) [] [] [].

End MoreSamples.

(** * Properties *)

Import App.

(** ** Strings and lists *)

Example split_data_url :
  split "," "data:image/png;base64,AAAA" = ["data:image/png;base64"; "AAAA"].
Proof. reflexivity. Qed.

Example trim_sample : trim "  x = 2 " = "x = 2".
Proof. reflexivity. Qed.

Example conforming_text_parses :
  Samples.JSON_parse Samples.conforming_text = Some Samples.conforming
  /\ is_MathSolution Samples.conforming = true.
Proof. split; reflexivity. Qed.

Lemma index_last {A : Type} (xs : list A) (x : A) :
  index (xs ++ [x]) (length xs) = Some x.
Proof.
  unfold index. induction xs as [|y ys IH]; simpl; auto.
Qed.

Lemma replace_nth_last {A : Type} (xs : list A) (x y : A) :
  replace_nth (length xs) y (xs ++ [x]) = xs ++ [y].
Proof.
  induction xs as [|z zs IH]; simpl; [reflexivity | now rewrite IH].
Qed.

Lemma remove_nth_last {A : Type} (xs : list A) (x : A) :
  remove_nth (length xs) (xs ++ [x]) = xs.
Proof.
  induction xs as [|z zs IH]; simpl; [reflexivity | now rewrite IH].
Qed.

Lemma truthy_string_true (s : string) : truthy_string s = true <-> s <> "".
Proof.
  unfold truthy_string. rewrite negb_true_iff. split.
  - intros H E. subst s. discriminate H.
  - intros H. apply String.eqb_neq. exact H.
Qed.

Lemma truthy_string_false (s : string) : truthy_string s = false <-> s = "".
Proof.
  unfold truthy_string. rewrite negb_false_iff. apply String.eqb_eq.
Qed.

(** ** The client *)

Section ClientFacts.

Variable JSON_parse : string -> option Value.

(** A response whose text is non-empty and parses is returned as parsed,
    with nothing logged; nothing looks inside the value. *)
Lemma read_response_parsed (failure t : string) (v : Value) :
  t <> "" -> JSON_parse t = Some v ->
  read_response JSON_parse failure (Responds (Some t)) = mkCompletion [] (Returned v).
Proof.
  intros Ht Hv. unfold read_response.
  apply truthy_string_true in Ht. rewrite Ht, Hv. reflexivity.
Qed.

(** What is thrown has been logged, once. *)
Lemma read_response_thrown (failure : string) (o : Settled) (e : Error) :
  outcome (read_response JSON_parse failure o) = Thrown e ->
  read_response JSON_parse failure o = mkCompletion [e] (Thrown e).
Proof.
  destruct o as [reason | [t|]]; cbn.
  - now intros [= <-].
  - destruct (truthy_string t); [destruct (JSON_parse t)|]; cbn;
      try discriminate; now intros [= <-].
  - now intros [= <-].
Qed.

End ClientFacts.

(** ** One solve session *)

Section SessionFacts.

Variable JSON_parse : string -> option Value.

(** Each piece of [handleSolve], on the call suspended last. *)

Lemma click_solve_idle (img : string) so er rs ts rq co :
  img <> "" ->
  step JSON_parse (mkWorld (mkState (Some img) idle so er) rs ts rq co) ClickSolve =
  Some (mkWorld (mkState (Some img) preprocessing so None) rs
          (ts ++ [AfterPreprocessing img]) rq co).
Proof.
  intros Himg. apply truthy_string_true in Himg.
  unfold step, handleSolve. simpl. rewrite Himg. reflexivity.
Qed.

Lemma timer_after_preprocessing (img : string) s rs ts rq co :
  step JSON_parse (mkWorld s rs (ts ++ [AfterPreprocessing img]) rq co)
       (TimerFired (length ts)) =
  Some (mkWorld (setProcessingStage ocr s) rs (ts ++ [AfterOcr img]) rq co).
Proof.
  unfold step, handleSolve_resume. simpl. rewrite index_last.
  unfold with_tasks. simpl. now rewrite replace_nth_last.
Qed.

Lemma timer_after_ocr (img : string) s rs ts rq co :
  step JSON_parse (mkWorld s rs (ts ++ [AfterOcr img]) rq co)
       (TimerFired (length ts)) =
  Some (mkWorld (setProcessingStage parsing s) rs (ts ++ [AfterRequest img])
          (rq ++ [SolveRequest (mimeType img) (base64Data img)]) co).
Proof.
  unfold step, handleSolve_resume. simpl. rewrite index_last.
  unfold with_tasks. simpl. now rewrite replace_nth_last.
Qed.

Lemma request_returned (img : string) (o : Settled) (result : Value) s rs ts rq co :
  read_response JSON_parse "No response text" o = mkCompletion [] (Returned result) ->
  step JSON_parse (mkWorld s rs (ts ++ [AfterRequest img]) rq co)
       (RequestSettled (length ts) o) =
  Some (mkWorld (setProcessingStage solving s) rs (ts ++ [AfterSolving result]) rq co).
Proof.
  intros Hread. unfold step, handleSolve_resume. simpl. rewrite index_last.
  simpl. rewrite Hread. simpl.
  unfold with_tasks, console_error. simpl.
  now rewrite replace_nth_last, app_nil_r.
Qed.

Lemma request_thrown (img : string) (o : Settled) (e : Error) s rs ts rq co :
  read_response JSON_parse "No response text" o = mkCompletion [e] (Thrown e) ->
  step JSON_parse (mkWorld s rs (ts ++ [AfterRequest img]) rq co)
       (RequestSettled (length ts) o) =
  Some (mkWorld (setError (Some failure_message) (setProcessingStage Types.error s))
          rs ts rq (co ++ [e; e])).
Proof.
  intros Hread. unfold step, handleSolve_resume. simpl. rewrite index_last.
  simpl. rewrite Hread. simpl.
  unfold handleSolve_catch, with_tasks, console_error, with_ui. simpl.
  now rewrite remove_nth_last, <- app_assoc.
Qed.

Lemma timer_after_solving (result : Value) s rs ts rq co :
  step JSON_parse (mkWorld s rs (ts ++ [AfterSolving result]) rq co)
       (TimerFired (length ts)) =
  Some (mkWorld (setSolution result (setProcessingStage complete s)) rs ts rq co).
Proof.
  unfold step, handleSolve_resume. simpl. rewrite index_last.
  unfold with_tasks. simpl. now rewrite remove_nth_last.
Qed.

(** The five worlds after the click, when the request comes back with text
    that parses to [v]. *)
Lemma solve_session_trace (w : World) (img t : string) (v : Value) :
  image (ui w) = Some img -> img <> "" ->
  processingStage (ui w) = idle ->
  t <> "" -> JSON_parse t = Some v ->
  let at_stage st so ts rq :=
    mkWorld (mkState (Some img) st so None) (readers w) ts rq (console w) in
  let rq := requests w ++ [SolveRequest (mimeType img) (base64Data img)] in
  trace JSON_parse w (solve_session (length (tasks w)) (Responds (Some t))) =
  Some [ w;
         at_stage preprocessing (solution (ui w)) (tasks w ++ [AfterPreprocessing img]) (requests w);
         at_stage ocr (solution (ui w)) (tasks w ++ [AfterOcr img]) (requests w);
         at_stage parsing (solution (ui w)) (tasks w ++ [AfterRequest img]) rq;
         at_stage solving (solution (ui w)) (tasks w ++ [AfterSolving v]) rq;
         at_stage complete v (tasks w) rq ].
Proof.
  destruct w as [[im st so er] rs ts rq co].
  cbn [ui image processingStage solution readers tasks requests console].
  intros -> Himg -> Ht Hv.
  cbn [trace solve_session].
  rewrite (click_solve_idle img so er rs ts rq co Himg).
  rewrite timer_after_preprocessing.
  rewrite timer_after_ocr.
  rewrite (request_returned img _ v) by now apply read_response_parsed.
  rewrite timer_after_solving.
  reflexivity.
Qed.

(** Where the session ends. *)
Lemma solve_session_run (w : World) (img t : string) (v : Value) :
  image (ui w) = Some img -> img <> "" ->
  processingStage (ui w) = idle ->
  t <> "" -> JSON_parse t = Some v ->
  run JSON_parse w (solve_session (length (tasks w)) (Responds (Some t))) =
  Some (mkWorld (mkState (Some img) complete v None) (readers w) (tasks w)
          (requests w ++ [SolveRequest (mimeType img) (base64Data img)]) (console w)).
Proof.
  destruct w as [[im st so er] rs ts rq co].
  cbn [ui image processingStage solution readers tasks requests console].
  intros -> Himg -> Ht Hv.
  cbn [run solve_session].
  rewrite (click_solve_idle img so er rs ts rq co Himg).
  rewrite timer_after_preprocessing, timer_after_ocr.
  rewrite (request_returned img _ v) by now apply read_response_parsed.
  rewrite timer_after_solving. reflexivity.
Qed.

(** A session whose request fails, whatever the cause, ends at [error] with
    the one message; what was published before is not touched. *)
Lemma solve_session_refused (w : World) (img : string) (o : Settled) (e : Error) :
  image (ui w) = Some img -> img <> "" ->
  processingStage (ui w) = idle ->
  outcome (read_response JSON_parse "No response text" o) = Thrown e ->
  let i := length (tasks w) in
  run JSON_parse w [ClickSolve; TimerFired i; TimerFired i; RequestSettled i o] =
  Some (mkWorld (mkState (Some img) Types.error (solution (ui w)) (Some failure_message))
          (readers w) (tasks w)
          (requests w ++ [SolveRequest (mimeType img) (base64Data img)])
          (console w ++ [e; e])).
Proof.
  destruct w as [[im st so er] rs ts rq co].
  cbn [ui image processingStage solution readers tasks requests console].
  intros -> Himg -> He. cbn [run].
  rewrite (click_solve_idle img so er rs ts rq co Himg).
  rewrite timer_after_preprocessing, timer_after_ocr.
  rewrite (request_thrown img o e) by now apply read_response_thrown.
  reflexivity.
Qed.

End SessionFacts.

(** ** The solve pipeline *)

(** Picking [png] and letting the reader finish leads from the first render
    to [Samples.png_loaded]. *)
Example png_selected :
  run Samples.JSON_parse start [FileSelected Samples.png; ReaderLoaded 0]
  = Some Samples.png_loaded.
Proof. reflexivity. Qed.

(** Any file whose type starts with [image/] ends up in [image], with the
    stage at [idle] and nothing published. *)
Lemma image_file_loads (JSON_parse : string -> option Value) (file : File) (w : World) :
  startsWith "image/" (file_type file) = true ->
  run JSON_parse w [FileSelected file; ReaderLoaded (length (readers w))] =
  Some (mkWorld (mkState (Some (file_dataURL file)) idle VNull None)
          (readers w) (tasks w) (requests w) (console w)).
Proof.
  intros Htype. destruct w as [s rs ts rq co].
  cbn [run step readers]. unfold processFile. rewrite Htype.
  unfold reader_onload. cbn. rewrite index_last. cbn.
  unfold with_readers. cbn. now rewrite remove_nth_last.
Qed.

(** C1.  With an image loaded and the stage at [idle], a [handleSolve] whose
    request resolves to text parsing to a conforming [MathSolution] [v] goes
    through the stages idle, preprocessing, ocr, parsing, solving, complete,
    each once and in this order; it sends one request, carrying the two parts
    of the data URL; at [complete] the solution is [v] itself, and it is the
    one displayed. *)
Theorem handleSolve_stage_sequence
    (JSON_parse : string -> option Value) (w : World) (img t : string) (v : Value) :
  image (ui w) = Some img -> truthy_string img = true ->
  processingStage (ui w) = idle ->
  truthy_string t = true -> JSON_parse t = Some v ->
  is_MathSolution v = true ->
  exists ws w',
    trace JSON_parse w (solve_session (length (tasks w)) (Responds (Some t))) = Some ws
    /\ run JSON_parse w (solve_session (length (tasks w)) (Responds (Some t))) = Some w'
    /\ stages ws = [idle; preprocessing; ocr; parsing; solving; complete]
    /\ solution (ui w') = v
    /\ displayed_solution (ui w') = Some v
    /\ requests w' = requests w ++ [SolveRequest (mimeType img) (base64Data img)]
    /\ tasks w' = tasks w.
Proof.
  intros Him Himg Hst Ht Hv Hconf.
  apply truthy_string_true in Himg. apply truthy_string_true in Ht.
  pose proof (solve_session_trace JSON_parse w img t v Him Himg Hst Ht Hv) as Htrace.
  cbv zeta in Htrace.
  destruct w as [[im st so er] rs ts rq co].
  cbn [ui image processingStage solution readers tasks requests console] in *.
  subst im st.
  eexists. eexists. split; [exact Htrace|].
  split.
  - now apply (solve_session_run JSON_parse
                 (mkWorld (mkState (Some img) idle so er) rs ts rq co) img t v).
  - cbn. repeat split.
    unfold displayed_solution. cbn [solution processingStage].
    destruct v; try discriminate Hconf. reflexivity.
Qed.

Lemma handleSolve_stage_sequence_witness :
  exists ws w',
    trace Samples.JSON_parse Samples.png_loaded
      (solve_session 0 (Responds (Some Samples.conforming_text))) = Some ws
    /\ run Samples.JSON_parse Samples.png_loaded
         (solve_session 0 (Responds (Some Samples.conforming_text))) = Some w'
    /\ stages ws = [idle; preprocessing; ocr; parsing; solving; complete]
    /\ solution (ui w') = Samples.conforming
    /\ displayed_solution (ui w') = Some Samples.conforming
    /\ requests w' = [SolveRequest (Some "image/png") (Some "iVBORw0KGgo=")]
    /\ tasks w' = [].
Proof.
  apply (handleSolve_stage_sequence Samples.JSON_parse Samples.png_loaded
           (file_dataURL Samples.png) Samples.conforming_text Samples.conforming);
    reflexivity.
Defined.

(** ** Reachable states of the solver *)

(** Closes [one_session] on a world written out in full. *)
Ltac holds_now :=
  unfold one_session; cbn; repeat split; eauto; try (intros; congruence).

Lemma not_null_dec (v : Value) : v = VNull \/ v <> VNull.
Proof. destruct v; (now left) || (right; discriminate). Qed.

Section Reachability.

Variable JSON_parse : string -> option Value.

Lemma one_session_start : one_session start.
Proof.
  unfold one_session, start. simpl. repeat split; auto.
  intros H. now contradiction H.
Qed.

Lemma one_session_step (w w' : World) (e : Event) :
  one_session w ->
  (e = ClickSolve -> tasks w = []) ->
  step JSON_parse w e = Some w' ->
  one_session w'.
Proof.
  intros (Hlen & Hbusy & Hpub) Hexcl Hstep.
  destruct w as [[im st so er] rs ts rq co].
  cbn [ui image processingStage solution readers tasks requests console] in *.
  destruct e as [file | i | | | i | i o];
    cbn [step ui image processingStage solution readers tasks requests console] in Hstep.
  - (* a file is picked: the solution is reset *)
    injection Hstep as <-. unfold processFile. cbn.
    destruct (startsWith "image/" (file_type file)); cbn; holds_now.
  - (* a reader finishes: only [image] changes *)
    unfold reader_onload in Hstep. cbn in Hstep.
    destruct (index rs i); [|discriminate]. injection Hstep as <-.
    cbn. holds_now.
  - (* the Start button: the stage is [idle], so nothing is published *)
    specialize (Hexcl eq_refl). subst ts.
    destruct (truthy_opt im && ProcessingStage_eqb st idle) eqn:Hguard; [|discriminate].
    apply andb_prop in Hguard as [_ Hidle].
    injection Hstep as <-.
    assert (Hso : so = VNull).
    { destruct (not_null_dec so) as [|Hne]; [assumption|].
      specialize (Hpub Hne). subst st. discriminate Hidle. }
    subst so. unfold handleSolve. cbn.
    destruct im as [img|]; [destruct (truthy_string img)|]; cbn; holds_now.
  - (* the clear button *)
    destruct (truthy_opt im); [|discriminate]. injection Hstep as <-.
    unfold clearImage. cbn. holds_now.
  - (* a delay elapses *)
    unfold handleSolve_resume in Hstep. cbn in Hstep.
    destruct Hlen as [-> | [t ->]]; [destruct i; cbn in Hstep; discriminate|].
    destruct i as [|[|i]]; cbn in Hstep; try discriminate.
    assert (Hso : so = VNull) by (apply Hbusy; discriminate). subst so.
    destruct t as [img | img | img | result]; try discriminate;
      injection Hstep as <-; cbn; holds_now.
  - (* the request settles *)
    unfold handleSolve_resume in Hstep. cbn in Hstep.
    destruct Hlen as [-> | [t ->]]; [destruct i; cbn in Hstep; discriminate|].
    destruct i as [|[|i]]; cbn in Hstep; try discriminate.
    assert (Hso : so = VNull) by (apply Hbusy; discriminate). subst so.
    destruct t as [img | img | img | result]; try discriminate.
    destruct (outcome (read_response JSON_parse "No response text" o));
      injection Hstep as <-; cbn; holds_now.
Qed.

Lemma one_session_run (es : list Event) (w w' : World) :
  one_session w ->
  run JSON_parse w es = Some w' ->
  exclusive JSON_parse w es = true ->
  one_session w'.
Proof.
  revert w. induction es as [|e es IH]; intros w Hinv Hrun Hexcl.
  - injection Hrun as <-. exact Hinv.
  - cbn [run] in Hrun. cbn [exclusive] in Hexcl.
    destruct (step JSON_parse w e) as [w1|] eqn:Hstep; [|discriminate].
    assert (Hclick : e = ClickSolve -> tasks w = []).
    { intros ->. destruct (tasks w); [reflexivity | discriminate Hexcl]. }
    assert (Hrest : exclusive JSON_parse w1 es = true).
    { destruct e; try exact Hexcl. destruct (tasks w); [exact Hexcl | discriminate Hexcl]. }
    apply (IH w1); auto. eapply one_session_step; eauto.
Qed.

Lemma run_snoc (es : list Event) (e : Event) (w w' : World) :
  run JSON_parse w (es ++ [e]) = Some w' ->
  exists w1, run JSON_parse w es = Some w1 /\ step JSON_parse w1 e = Some w'.
Proof.
  revert w. induction es as [|e0 es IH]; intros w Hrun; cbn [app run] in *.
  - destruct (step JSON_parse w e) as [w1|] eqn:Hstep; [|discriminate].
    injection Hrun as <-. eauto.
  - destruct (step JSON_parse w e0) as [w1|]; [|discriminate]. now apply IH.
Qed.

Lemma exclusive_prefix (es es' : list Event) (w : World) :
  exclusive JSON_parse w (es ++ es') = true -> exclusive JSON_parse w es = true.
Proof.
  revert w. induction es as [|e es IH]; intros w H; [reflexivity|].
  cbn [app exclusive] in *.
  destruct e; destruct (tasks w); try discriminate H;
    match goal with
    | |- context [step JSON_parse w ?e] =>
        destruct (step JSON_parse w e); [now apply IH | reflexivity]
    end.
Qed.

(** A throwing client leaves the session at [error] with nothing published. *)
Lemma one_session_thrown (w w' : World) (i : nat) (o : Settled) :
  one_session w ->
  client_throws JSON_parse o ->
  step JSON_parse w (RequestSettled i o) = Some w' ->
  processingStage (ui w') = Types.error
  /\ solution (ui w') = VNull
  /\ error (ui w') = Some failure_message
  /\ tasks w' = [].
Proof.
  intros (Hlen & Hbusy & _) [e He] Hstep.
  destruct w as [[im st so er] rs ts rq co].
  cbn [ui image processingStage solution readers tasks requests console step] in *.
  unfold handleSolve_resume in Hstep. cbn in Hstep.
  destruct Hlen as [-> | [t ->]]; [destruct i; cbn in Hstep; discriminate|].
  destruct i as [|[|i]]; cbn in Hstep; try discriminate.
  assert (Hso : so = VNull) by (apply Hbusy; discriminate). subst so.
  destruct t as [img | img | img | result]; try discriminate.
  rewrite He in Hstep. injection Hstep as <-. cbn. auto.
Qed.

End Reachability.

(** Whatever the state, the page shows a solution only at [complete]. *)
Lemma displayed_only_at_complete (s : State) (v : Value) :
  displayed_solution s = Some v -> processingStage s = complete /\ solution s = v.
Proof.
  unfold displayed_solution. destruct (truthy (solution s)); [|discriminate].
  destruct (processingStage s); cbn; intros [= <-]; auto.
Qed.

(** C2, as the code has it.  Along every run of file selections, solves and
    clears from the first render in which no solve is started while an earlier
    one is still suspended, a solution is published only at [complete] and
    never at [error]; and when the client then throws, the stage becomes
    [error] with no solution published and none displayed. *)
Theorem exclusive_sessions_publish_at_complete
    (JSON_parse : string -> option Value) (es : list Event) (w : World) :
  run JSON_parse start es = Some w ->
  exclusive JSON_parse start es = true ->
  (solution (ui w) <> VNull -> processingStage (ui w) = complete)
  /\ (processingStage (ui w) = Types.error -> solution (ui w) = VNull)
  /\ (forall i o w',
        client_throws JSON_parse o ->
        step JSON_parse w (RequestSettled i o) = Some w' ->
        processingStage (ui w') = Types.error
        /\ solution (ui w') = VNull
        /\ displayed_solution (ui w') = None).
Proof.
  intros Hrun Hexcl.
  pose proof (one_session_run JSON_parse es start w (one_session_start) Hrun Hexcl) as Hinv.
  split; [|split].
  - apply Hinv.
  - intros Herr. destruct (not_null_dec (solution (ui w))) as [|Hne]; [assumption|].
    destruct Hinv as (_ & _ & Hpub). rewrite (Hpub Hne) in Herr. discriminate Herr.
  - intros i o w' Hthrow Hstep.
    destruct (one_session_thrown JSON_parse w w' i o Hinv Hthrow Hstep)
      as (Hst & Hso & _ & _).
    repeat split; auto.
    unfold displayed_solution. now rewrite Hso.
Qed.

Lemma exclusive_sessions_publish_at_complete_witness :
  (solution (ui Samples.request_out) <> VNull ->
   processingStage (ui Samples.request_out) = complete)
  /\ (processingStage (ui Samples.request_out) = Types.error ->
      solution (ui Samples.request_out) = VNull)
  /\ (forall i o w',
        client_throws Samples.JSON_parse o ->
        step Samples.JSON_parse Samples.request_out (RequestSettled i o) = Some w' ->
        processingStage (ui w') = Types.error
        /\ solution (ui w') = VNull
        /\ displayed_solution (ui w') = None).
Proof.
  apply (exclusive_sessions_publish_at_complete
           Samples.JSON_parse Samples.submitted Samples.request_out);
    reflexivity.
Defined.

(** The refusal the witness is about does happen. *)
Example refused_session :
  client_throws Samples.JSON_parse (Rejects "network")
  /\ option_map (fun w => (processingStage (ui w), solution (ui w)))
       (step Samples.JSON_parse Samples.request_out (RequestSettled 0 (Rejects "network")))
     = Some (Types.error, VNull).
Proof. split; [eexists; reflexivity | reflexivity]. Qed.

(** C2 as it is written fails: with two sessions overlapping, the first one
    publishes its solution while the second is suspended, and the refusal of
    the second one leaves the stage at [error] with that solution still
    published. *)
Lemma overlapping_sessions_publish_at_error :
  exists w,
    run Samples.JSON_parse start Samples.overlapping = Some w
    /\ processingStage (ui w) = Types.error
    /\ solution (ui w) = Samples.conforming
    /\ solution (ui w) <> VNull.
Proof.
  eexists. split; [vm_compute; reflexivity|].
  vm_compute. repeat split. discriminate.
Qed.

(** ** What the client accepts *)

(** C3, as the code has it.  No validation stands between the response and
    the page: a response whose text is non-empty and parses to [v] makes
    [solveMathProblem] return [v], whatever [v] holds, and [handleSolve]
    publishes it at [complete] with nothing logged; and when
    [solveMathProblem] throws, it is because the request was rejected, the
    response had no text, or the text was not JSON. *)
Theorem solveMathProblem_returns_what_parses
    (JSON_parse : string -> option Value) (w : World) (img t : string) (v : Value) :
  image (ui w) = Some img -> truthy_string img = true ->
  processingStage (ui w) = idle ->
  truthy_string t = true -> JSON_parse t = Some v ->
  let call := solveMathProblem JSON_parse (base64Data img) (mimeType img) in
  settle call (Responds (Some t)) = mkCompletion [] (Returned v)
  /\ (exists w',
        run JSON_parse w (solve_session (length (tasks w)) (Responds (Some t))) = Some w'
        /\ processingStage (ui w') = complete
        /\ solution (ui w') = v
        /\ error (ui w') = None
        /\ console w' = console w)
  /\ (forall o e,
        outcome (settle call o) = Thrown e ->
        (exists reason, o = Rejects reason /\ e = Rejected reason)
        \/ ((o = Responds None \/ o = Responds (Some ""))
            /\ e = ErrorMsg "No response text")
        \/ (exists t', o = Responds (Some t') /\ JSON_parse t' = None
                       /\ e = SyntaxError t')).
Proof.
  intros Him Himg Hst Ht Hv call.
  apply truthy_string_true in Himg. apply truthy_string_true in Ht.
  split; [|split].
  - now apply read_response_parsed.
  - eexists. split; [now apply (solve_session_run JSON_parse w img t v)|].
    cbn. auto.
  - intros o e. unfold call. cbn [settle solveMathProblem].
    destruct o as [reason | [t'|]]; cbn.
    + intros [= <-]. left. eauto.
    + destruct (truthy_string t') eqn:Ht'.
      * destruct (JSON_parse t') eqn:Hv'; [discriminate|].
        intros [= <-]. right. right. eauto.
      * apply truthy_string_false in Ht'. subst t'.
        intros [= <-]. right. left. auto.
    + intros [= <-]. right. left. auto.
Qed.

Lemma solveMathProblem_returns_what_parses_witness :
  let call := solveMathProblem Samples.JSON_parse (Some "iVBORw0KGgo=") (Some "image/png") in
  settle call (Responds (Some Samples.steps_not_array_text))
  = mkCompletion [] (Returned Samples.steps_not_array)
  /\ (exists w',
        run Samples.JSON_parse Samples.png_loaded
          (solve_session 0 (Responds (Some Samples.steps_not_array_text))) = Some w'
        /\ processingStage (ui w') = complete
        /\ solution (ui w') = Samples.steps_not_array
        /\ error (ui w') = None
        /\ console w' = [])
  /\ (forall o e,
        outcome (settle call o) = Thrown e ->
        (exists reason, o = Rejects reason /\ e = Rejected reason)
        \/ ((o = Responds None \/ o = Responds (Some ""))
            /\ e = ErrorMsg "No response text")
        \/ (exists t', o = Responds (Some t') /\ Samples.JSON_parse t' = None
                       /\ e = SyntaxError t')).
Proof.
  apply (solveMathProblem_returns_what_parses Samples.JSON_parse Samples.png_loaded
           (file_dataURL Samples.png) Samples.steps_not_array_text Samples.steps_not_array);
    reflexivity.
Defined.

(** A payload with every field and no steps goes through like any other. *)
Example conforming_with_no_steps_accepted :
  outcome (settle (solveMathProblem Samples.JSON_parse (Some "iVBORw0KGgo=") (Some "image/png"))
                  (Responds (Some Samples.conforming_text)))
  = Returned Samples.conforming.
Proof. reflexivity. Qed.

(** C3 as it is written fails: a payload without [finalAnswer] is returned by
    [solveMathProblem], not refused, and [handleSolve] publishes it at
    [complete]. *)
Lemma payload_without_finalAnswer_is_published :
  has_prop "finalAnswer" Samples.no_finalAnswer = false
  /\ is_MathSolution Samples.no_finalAnswer = false
  /\ outcome (settle (solveMathProblem Samples.JSON_parse (Some "iVBORw0KGgo=") (Some "image/png"))
                     (Responds (Some Samples.no_finalAnswer_text)))
     = Returned Samples.no_finalAnswer
  /\ option_map (fun w => (processingStage (ui w), solution (ui w), error (ui w)))
       (run Samples.JSON_parse Samples.png_loaded
          (solve_session 0 (Responds (Some Samples.no_finalAnswer_text))))
     = Some (complete, Samples.no_finalAnswer, None).
Proof. repeat split. Qed.

(** ** Picking a file *)

(** C7.  For a file whose type does not start with [image/], [processFile]
    sends nothing, starts no reader and no session, and returns with the
    invalid-image message set and the stage at [idle]; the page it leaves does
    not depend on the file; and with no image loaded before, the Start button
    is not there and [handleSolve] returns at once. *)
Theorem processFile_rejects_non_image
    (JSON_parse : string -> option Value) (file : File) (w : World) :
  startsWith "image/" (file_type file) = false ->
  let w' := processFile file w in
  requests w' = requests w
  /\ readers w' = readers w
  /\ tasks w' = tasks w
  /\ error (ui w') = Some invalid_image_message
  /\ processingStage (ui w') = idle
  /\ ui w' = setError (Some invalid_image_message) (cleared (ui w))
  /\ (image (ui w) = None ->
      step JSON_parse w' ClickSolve = None /\ handleSolve w' = w').
Proof.
  intros Htype w'. unfold w', processFile. rewrite Htype. cbn.
  repeat (split; [reflexivity|]).
  intros Him. unfold handleSolve. cbn. now rewrite Him.
Qed.

Lemma processFile_rejects_non_image_witness :
  let w' := processFile Samples.notes start in
  requests w' = []
  /\ readers w' = []
  /\ tasks w' = []
  /\ error (ui w') = Some invalid_image_message
  /\ processingStage (ui w') = idle
  /\ ui w' = setError (Some invalid_image_message) (cleared initial)
  /\ (image initial = None ->
      step Samples.JSON_parse w' ClickSolve = None /\ handleSolve w' = w').
Proof.
  apply (processFile_rejects_non_image Samples.JSON_parse Samples.notes start).
  reflexivity.
Defined.

(** C10.  Whatever the file, [processFile] resets the solution to [null], the
    error and the stage to [idle] before the type check, which then works on
    the cleared page: an image file starts a reader, any other file only sets
    the message.  So nothing is displayed afterwards, also when the file is
    refused. *)
Theorem processFile_clears_before_checking (file : File) (w : World) :
  let w' := processFile file w in
  solution (ui w') = VNull
  /\ processingStage (ui w') = idle
  /\ displayed_solution (ui w') = None
  /\ image (ui w') = image (ui w)
  /\ w' = (if startsWith "image/" (file_type file)
           then with_readers (fun rs => rs ++ [file]) (with_ui cleared w)
           else with_ui (setError (Some invalid_image_message)) (with_ui cleared w)).
Proof.
  unfold processFile.
  destruct (startsWith "image/" (file_type file)); cbn; repeat split.
Qed.

(** A finished solution is gone once a text file has been picked. *)
Example refused_file_discards_solution :
  displayed_solution (ui Samples.solved) = Some Samples.conforming
  /\ ui (processFile Samples.notes Samples.solved)
     = mkState (Some (file_dataURL Samples.png)) idle VNull (Some invalid_image_message).
Proof. split; reflexivity. Qed.

(** ** The displayed expression *)

Import SolutionDisplay.

(** C9, as the code has it.  The expression shown is [cleanedLatex] when that
    is a non-empty string, and [originalLatex] when [cleanedLatex] is missing,
    [null] or the empty string; for a value of type [MathSolution] the
    fallback is taken exactly when [cleanedLatex] is empty. *)
Theorem main_latex_falls_back_on_empty (solution : Value) :
  (forall c, prop "cleanedLatex" solution = VStr c -> c <> "" ->
             main_latex solution = VStr c)
  /\ (prop "cleanedLatex" solution = VStr "" ->
      main_latex solution = prop "originalLatex" solution)
  /\ (has_prop "cleanedLatex" solution = false ->
      main_latex solution = prop "originalLatex" solution)
  /\ (prop "cleanedLatex" solution = VNull ->
      main_latex solution = prop "originalLatex" solution)
  /\ (is_MathSolution solution = true ->
      exists c o,
        prop "cleanedLatex" solution = VStr c
        /\ prop "originalLatex" solution = VStr o
        /\ main_latex solution = VStr (if c =? "" then o else c)).
Proof.
  unfold main_latex. repeat split.
  - intros c -> Hc. apply String.eqb_neq in Hc. cbn. now rewrite Hc.
  - now intros ->.
  - destruct solution as [| | | | | |fields]; try reflexivity.
    cbn. intros Hkey.
    assert (Hmissing : lookup "cleanedLatex" fields = VUndefined).
    { induction fields as [|[k v] rest IH]; [reflexivity|].
      cbn in *. apply orb_false_iff in Hkey as [Hk Hrest].
      rewrite Hk. now apply IH. }
    now rewrite Hmissing.
  - now intros ->.
  - destruct solution as [| | | | | |fields]; try discriminate.
    unfold is_MathSolution. intros H.
    repeat (apply andb_prop in H as [H ?]).
    destruct (prop "cleanedLatex" (VObj fields)) as [| | | |c| |]; try discriminate.
    destruct (prop "originalLatex" (VObj fields)) as [| | | |o| |]; try discriminate.
    exists c, o. repeat split. cbn. now destruct (c =? "").
Qed.

Lemma main_latex_falls_back_on_empty_witness :
  main_latex Samples.conforming = VStr "2x + 3 = 7"
  /\ exists c o,
       prop "cleanedLatex" Samples.blank_cleaned = VStr c
       /\ prop "originalLatex" Samples.blank_cleaned = VStr o
       /\ main_latex Samples.blank_cleaned = VStr (if c =? "" then o else c).
Proof.
  split.
  - apply (proj1 (main_latex_falls_back_on_empty Samples.conforming));
      [reflexivity | discriminate].
  - apply (proj2 (proj2 (proj2 (proj2
             (main_latex_falls_back_on_empty Samples.blank_cleaned))))).
    reflexivity.
Defined.

(** C9 as it is written fails: a [MathSolution] whose [cleanedLatex] is there
    and is the empty string is shown with [originalLatex]. *)
Lemma empty_cleanedLatex_falls_back :
  is_MathSolution Samples.blank_cleaned = true
  /\ has_prop "cleanedLatex" Samples.blank_cleaned = true
  /\ prop "cleanedLatex" Samples.blank_cleaned = VStr ""
  /\ main_latex Samples.blank_cleaned = VStr "2x+3=7"
  /\ main_latex Samples.blank_cleaned <> prop "cleanedLatex" Samples.blank_cleaned.
Proof. repeat split. discriminate. Qed.

(** ** The question generator *)

(** C5, as the code has it.  [generatePracticeQuestion] never fails before
    asking: whatever the value of [difficulty], it sends one request, and for
    every value other than ['Easy'] and ['Hard'] (so for ['Medium'], for a
    missing argument and for any unknown value alike) the request carries
    the Medium prompt. *)
Theorem generatePracticeQuestion_defaults_to_medium
    (JSON_parse : string -> option Value) (difficulty : Value) :
  difficulty <> VStr "Easy" -> difficulty <> VStr "Hard" ->
  requested (generatePracticeQuestion JSON_parse difficulty)
  = Some (QuestionRequest medium_prompt)
  /\ (forall d, requested (generatePracticeQuestion JSON_parse d)
                = Some (QuestionRequest (difficultyPrompt d)))
  /\ difficultyPrompt (VStr "Easy") = easy_prompt
  /\ difficultyPrompt (VStr "Hard") = hard_prompt.
Proof.
  intros Heasy Hhard. repeat split. cbn. f_equal. f_equal.
  destruct difficulty as [| | | |d| |]; try reflexivity.
  cbn. destruct (d =? "Easy") eqn:E.
  - apply String.eqb_eq in E. subst d. now contradiction Heasy.
  - destruct (d =? "Hard") eqn:H; [|reflexivity].
    apply String.eqb_eq in H. subst d. now contradiction Hhard.
Qed.

Lemma generatePracticeQuestion_defaults_to_medium_witness :
  requested (generatePracticeQuestion Samples.JSON_parse VUndefined)
  = Some (QuestionRequest medium_prompt)
  /\ (forall d, requested (generatePracticeQuestion Samples.JSON_parse d)
                = Some (QuestionRequest (difficultyPrompt d)))
  /\ difficultyPrompt (VStr "Easy") = easy_prompt
  /\ difficultyPrompt (VStr "Hard") = hard_prompt.
Proof.
  apply (generatePracticeQuestion_defaults_to_medium Samples.JSON_parse VUndefined);
    discriminate.
Defined.

(** C5 as it is written fails: the value ['Expert'] is not refused; the
    request goes out, with the Medium prompt. *)
Lemma unknown_difficulty_is_sent_as_medium :
  requested (generatePracticeQuestion Samples.JSON_parse (VStr "Expert"))
  = Some (QuestionRequest medium_prompt)
  /\ forall e, generatePracticeQuestion Samples.JSON_parse (VStr "Expert") <> Failed e.
Proof. split; [reflexivity | discriminate]. Qed.

(** ** The practice round *)

Section PracticeFacts.

Import PracticeMode.

Variable JSON_parse : string -> option Value.

Lemma Difficulty_eqb_neq (a b : Difficulty) : a <> b -> Difficulty_eqb a b = false.
Proof. destruct a, b; intros H; try reflexivity; now contradiction H. Qed.

(** The test of [handleDifficultyChange] is [unanswered]. *)
Lemma unanswered_test (s : State) :
  negb (truthy (grading s)) && negb (truthy_string (userAnswer s))
  && negb (truthy_opt (answerImage s)) = true <-> unanswered s.
Proof.
  unfold unanswered. rewrite !andb_true_iff, !negb_true_iff, truthy_string_false.
  tauto.
Qed.

(** A settlement that is no parsable text makes the client throw, having
    logged what it throws. *)
Lemma read_response_refuses (failure : string) (o : Settled) :
  (forall t q, truthy_string t = true -> JSON_parse t = Some q -> o <> Responds (Some t)) ->
  exists e, read_response JSON_parse failure o = mkCompletion [e] (Thrown e).
Proof.
  intros Hbad. destruct o as [reason | [t|]]; cbn; eauto.
  destruct (truthy_string t) eqn:Ht; eauto.
  destruct (JSON_parse t) as [q|] eqn:Hq; eauto.
  now contradiction (Hbad t q Ht Hq).
Qed.

(** *** [fetchQuestion] *)

(** C8, as the code has it.  [fetchQuestion] clears the grading, the typed
    answer and the answer image and raises [loading] before it asks, and
    sends one request for the current difficulty.  When the request yields a
    question, that question replaces the one on the page.  When it fails, the
    question on the page stays as it was, the answer and the grading stay
    cleared, the error goes to [console.error] and no further: nothing is
    left unhandled and the page holds no trace of it.  Either way [loading]
    is lowered again. *)
Theorem fetchQuestion_keeps_question_on_failure (o : Settled) (w : World) :
  let done := settle (generatePracticeQuestion JSON_parse
                        (Difficulty_value (difficulty (ui w)))) o in
  let w1 := fetchQuestion_begin JSON_parse w in
  let w' := fetchQuestion JSON_parse o w in
  ui w1 = mkState (question (ui w)) true "" None VNull (isGrading (ui w)) (difficulty (ui w))
  /\ requests w1 = requests w
       ++ [QuestionRequest (difficultyPrompt (Difficulty_value (difficulty (ui w))))]
  /\ requests w' = requests w1
  /\ unhandled w' = unhandled w
  /\ (forall q, outcome done = Returned q ->
        ui w' = mkState q false "" None VNull (isGrading (ui w)) (difficulty (ui w))
        /\ console w' = console w ++ logged done)
  /\ (forall e, outcome done = Thrown e ->
        ui w' = mkState (question (ui w)) false "" None VNull
                  (isGrading (ui w)) (difficulty (ui w))
        /\ console w' = console w ++ logged done ++ [e]).
Proof.
  destruct w as [[q l a img g ig d] rq co un].
  unfold fetchQuestion, fetchQuestion_begin, fetchQuestion_resume. cbn.
  destruct (read_response JSON_parse "Failed to generate question" o) as [lg [q'|e]];
    cbn; repeat (split; [reflexivity|]); split; intros x Hx;
    try discriminate Hx; injection Hx as <-; split; try reflexivity.
  now rewrite app_assoc.
Qed.

(** *** [handleDifficultyChange] *)

(** C6.  For a level other than the current one, [handleDifficultyChange]
    asks for a question of the new level exactly when the round is
    unanswered, and otherwise only stores the level.  When the question
    comes, it replaces the one on the page and [loading] is lowered, as
    [fetchQuestion] at the new level does.  When it does not come, the two
    part: the [.then] chain has no handler for the failure, so [loading]
    stays raised and the rejection is left unhandled, where [fetchQuestion]
    lowers [loading] and logs the error. *)
Theorem handleDifficultyChange_is_a_new_round_only_on_success
    (level : Difficulty) (o : Settled) (w : World) :
  difficulty (ui w) <> level ->
  let w' := handleDifficultyChange JSON_parse level o w in
  let round := fetchQuestion JSON_parse o (with_ui (setDifficulty level) w) in
  (unanswered (ui w) ->
     requests w' = requests w
       ++ [QuestionRequest (difficultyPrompt (Difficulty_value level))]
     /\ requests round = requests w'
     /\ (forall t q,
           truthy_string t = true -> JSON_parse t = Some q -> o = Responds (Some t) ->
           ui w' = mkState q false "" (answerImage (ui w)) (grading (ui w))
                     (isGrading (ui w)) level
           /\ console w' = console w
           /\ unhandled w' = unhandled w
           /\ (untouched (ui w) -> w' = round))
     /\ ((forall t q,
            truthy_string t = true -> JSON_parse t = Some q -> o <> Responds (Some t)) ->
         exists e,
           ui w' = mkState (question (ui w)) true "" (answerImage (ui w))
                     (grading (ui w)) (isGrading (ui w)) level
           /\ console w' = console w ++ [e]
           /\ unhandled w' = unhandled w ++ [e]
           /\ ui round = mkState (question (ui w)) false "" None VNull
                           (isGrading (ui w)) level
           /\ console round = console w ++ [e; e]
           /\ unhandled round = unhandled w
           /\ w' <> round))
  /\ (~ unanswered (ui w) -> w' = with_ui (setDifficulty level) w).
Proof.
  intros Hlevel w' round.
  pose proof (unanswered_test (ui w)) as Htest.
  apply Difficulty_eqb_neq in Hlevel.
  unfold w', round, handleDifficultyChange, handleDifficultyChange_begin.
  rewrite Hlevel. split.
  - intros Hun. pose proof Hun as (Hg & Hu & Hi).
    apply Htest in Hun. rewrite Hun.
    destruct w as [[q l a img g ig d] rq co un]. cbn in Hg, Hu, Hi. subst a.
    unfold handleDifficultyChange_resume, fetchQuestion, fetchQuestion_begin,
      fetchQuestion_resume.
    cbn [ui with_ui setDifficulty setLoading setGrading setUserAnswer setAnswerImage
         question loading userAnswer answerImage grading isGrading difficulty
         requests console unhandled ask send requested generatePracticeQuestion
         settle console_error].
    split; [|split; [|split]].
    + destruct (outcome (read_response JSON_parse "Failed to generate question" o));
        reflexivity.
    + destruct (outcome (read_response JSON_parse "Failed to generate question" o)),
        (outcome (read_response JSON_parse "Failed to generate question" o));
        reflexivity.
    + intros t q' Ht Hq ->. apply truthy_string_true in Ht.
      rewrite (read_response_parsed JSON_parse _ t q' Ht Hq). cbn.
      rewrite app_nil_r. repeat split.
      intros (Hnull & _ & Hnone). cbn in Hnull, Hnone. subst g img. reflexivity.
    + intros Hbad.
      destruct (read_response_refuses "Failed to generate question" o Hbad) as [e He].
      rewrite He. exists e. cbn. rewrite <- app_assoc. repeat split.
      intros Heq. apply (f_equal (fun x => loading (ui x))) in Heq. discriminate Heq.
  - intros Hnot.
    destruct (negb (truthy (grading (ui w))) && negb (truthy_string (userAnswer (ui w)))
              && negb (truthy_opt (answerImage (ui w)))) eqn:Hcond.
    + exfalso. apply Hnot. now apply Htest.
    + reflexivity.
Qed.

(** *** [handleSubmit] *)


End PracticeFacts.

(** *** The round on sample data *)

(** C8 as it is written fails: after a graded round, a [fetchQuestion] whose
    request is rejected leaves the old question on the page, not none, and
    the rejection is only written to the console. *)
Lemma failed_fetch_keeps_old_question :
  let w' := PracticeMode.fetchQuestion Samples.JSON_parse (Rejects "network")
              Samples.graded_round in
  PracticeMode.question (PracticeMode.ui w') = Samples.q1
  /\ PracticeMode.question (PracticeMode.ui w') <> VNull
  /\ PracticeMode.ui w' = PracticeMode.mkState Samples.q1 false "" None VNull false Easy
  /\ PracticeMode.console w' = [Rejected "network"; Rejected "network"]
  /\ PracticeMode.unhandled w' = [].
Proof. vm_compute. repeat split. discriminate. Qed.

Lemma handleDifficultyChange_is_a_new_round_only_on_success_witness :
  let w := Samples.fresh_round in
  let o := Rejects "network" in
  let w' := PracticeMode.handleDifficultyChange Samples.JSON_parse Hard o w in
  let round := PracticeMode.fetchQuestion Samples.JSON_parse o
                 (PracticeMode.with_ui (PracticeMode.setDifficulty Hard) w) in
  (PracticeMode.unanswered (PracticeMode.ui w) ->
     PracticeMode.requests w' = PracticeMode.requests w
       ++ [QuestionRequest (difficultyPrompt (Difficulty_value Hard))]
     /\ PracticeMode.requests round = PracticeMode.requests w'
     /\ (forall t q,
           truthy_string t = true -> Samples.JSON_parse t = Some q ->
           o = Responds (Some t) ->
           PracticeMode.ui w'
           = PracticeMode.mkState q false ""
               (PracticeMode.answerImage (PracticeMode.ui w))
               (PracticeMode.grading (PracticeMode.ui w))
               (PracticeMode.isGrading (PracticeMode.ui w)) Hard
           /\ PracticeMode.console w' = PracticeMode.console w
           /\ PracticeMode.unhandled w' = PracticeMode.unhandled w
           /\ (PracticeMode.untouched (PracticeMode.ui w) -> w' = round))
     /\ ((forall t q,
            truthy_string t = true -> Samples.JSON_parse t = Some q ->
            o <> Responds (Some t)) ->
         exists e,
           PracticeMode.ui w'
           = PracticeMode.mkState (PracticeMode.question (PracticeMode.ui w)) true ""
               (PracticeMode.answerImage (PracticeMode.ui w))
               (PracticeMode.grading (PracticeMode.ui w))
               (PracticeMode.isGrading (PracticeMode.ui w)) Hard
           /\ PracticeMode.console w' = PracticeMode.console w ++ [e]
           /\ PracticeMode.unhandled w' = PracticeMode.unhandled w ++ [e]
           /\ PracticeMode.ui round
              = PracticeMode.mkState (PracticeMode.question (PracticeMode.ui w)) false ""
                  None VNull (PracticeMode.isGrading (PracticeMode.ui w)) Hard
           /\ PracticeMode.console round = PracticeMode.console w ++ [e; e]
           /\ PracticeMode.unhandled round = PracticeMode.unhandled w
           /\ w' <> round))
  /\ (~ PracticeMode.unanswered (PracticeMode.ui w) ->
      w' = PracticeMode.with_ui (PracticeMode.setDifficulty Hard) w).
Proof.
  apply (handleDifficultyChange_is_a_new_round_only_on_success Samples.JSON_parse Hard
           (Rejects "network") Samples.fresh_round).
  discriminate.
Defined.

(** At the failing input itself: the fresh round, the level [Hard], the
    request rejected.  [handleDifficultyChange] leaves [loading] raised and
    the rejection unhandled; [fetchQuestion] at [Hard] would have lowered
    [loading] and logged. *)
Example change_to_Hard_is_not_a_new_round_when_rejected :
  let w' := PracticeMode.handleDifficultyChange Samples.JSON_parse Hard
              (Rejects "network") Samples.fresh_round in
  let round := PracticeMode.fetchQuestion Samples.JSON_parse (Rejects "network")
                 (PracticeMode.with_ui (PracticeMode.setDifficulty Hard)
                    Samples.fresh_round) in
  w' = PracticeMode.mkWorld
         (PracticeMode.mkState Samples.q1 true "" None VNull false Hard)
         [QuestionRequest hard_prompt] [Rejected "network"] [Rejected "network"]
  /\ round = PracticeMode.mkWorld
               (PracticeMode.mkState Samples.q1 false "" None VNull false Hard)
               [QuestionRequest hard_prompt]
               [Rejected "network"; Rejected "network"] [].
Proof. split; vm_compute; reflexivity. Qed.

(** The two cases of the specification: on a fresh round the change to
    [Hard] asks for a question at once; on a graded round it only stores the
    level. *)
Example change_to_Hard :
  PracticeMode.requests
    (PracticeMode.handleDifficultyChange Samples.JSON_parse Hard
       (Responds (Some Samples.q1_text)) Samples.fresh_round)
  = [QuestionRequest hard_prompt]
  /\ PracticeMode.handleDifficultyChange Samples.JSON_parse Hard
       (Responds (Some Samples.q1_text)) Samples.graded_round
     = PracticeMode.with_ui (PracticeMode.setDifficulty Hard) Samples.graded_round.
Proof. split; vm_compute; reflexivity. Qed.

(** When the request started by a change of level is rejected, no handler
    runs: [loading] stays raised and the rejection is left unhandled, where
    [fetchQuestion] lowers [loading] and logs. *)
Example change_to_Hard_rejected :
  let w' := PracticeMode.handleDifficultyChange Samples.JSON_parse Hard
              (Rejects "network") Samples.fresh_round in
  PracticeMode.loading (PracticeMode.ui w') = true
  /\ PracticeMode.unhandled w' = [Rejected "network"]
  /\ PracticeMode.loading
       (PracticeMode.ui
          (PracticeMode.fetchQuestion Samples.JSON_parse (Rejects "network")
             (PracticeMode.with_ui (PracticeMode.setDifficulty Hard) Samples.fresh_round)))
     = false.
Proof. vm_compute. repeat split. Qed.

(** The scenario of the specification: [x=2] is graded as correct, and the
    send button and the Enter key then do nothing. *)
Example graded_round_is_terminal_through_the_controls :
  PracticeMode.click_submit Samples.JSON_parse (Responds (Some Samples.graded_text))
    Samples.answered_round
  = PracticeMode.mkWorld
      (PracticeMode.mkState Samples.q1 false "x=2" None Samples.graded false Easy)
      [GradeRequest (VStr "2x+3=7") (Some "x=2") false None] [] []
  /\ PracticeMode.click_submit Samples.JSON_parse (Responds (Some Samples.regraded_text))
       Samples.graded_round = Samples.graded_round
  /\ PracticeMode.press_enter Samples.JSON_parse (Responds (Some Samples.regraded_text))
       Samples.graded_round = Samples.graded_round.
Proof. repeat split; vm_compute; reflexivity. Qed.


Lemma fetchQuestion_keeps_question_on_failure_witness :
  let w' := PracticeMode.fetchQuestion Samples.JSON_parse (Rejects "network")
              Samples.answered_round in
  PracticeMode.ui w' = PracticeMode.mkState Samples.q1 false "" None VNull false Easy
  /\ PracticeMode.console w' = [] ++ [Rejected "network"] ++ [Rejected "network"].
Proof.
  apply (proj2 (proj2 (proj2 (proj2 (proj2
           (fetchQuestion_keeps_question_on_failure Samples.JSON_parse
              (Rejects "network") Samples.answered_round)))))).
  reflexivity.
Defined.


(** A grading that fails leaves the answered round as it was, ready to be
    sent again. *)
Example failed_grading_keeps_the_round :
  PracticeMode.handleSubmit Samples.JSON_parse (Rejects "network") Samples.answered_round
  = PracticeMode.mkWorld
      (PracticeMode.ui Samples.answered_round)
      [GradeRequest (VStr "2x+3=7") (Some "x=2") false None]
      [Rejected "network"; Rejected "network"] [].
Proof. vm_compute. reflexivity. Qed.

(** * Further properties *)

(** ** Data URLs *)

Import FileReader.

Lemma split_nonempty (c : ascii) (s : string) : split c s <> [].
Proof.
  destruct s as [|d rest]; cbn; [discriminate|].
  destruct (Ascii.eqb d c); [discriminate|].
  destruct (split c rest); discriminate.
Qed.

(** A string without the separator is one piece. *)
Lemma split_without (c : ascii) (s : string) :
  occurs c s = false -> split c s = [s].
Proof.
  induction s as [|d rest IH]; cbn; [reflexivity|].
  intros H. apply orb_false_iff in H as [Hd Hrest].
  rewrite Hd, (IH Hrest). reflexivity.
Qed.

(** A prefix without the separator stays glued to the first piece. *)
Lemma split_after_prefix (c : ascii) (a b : string) :
  occurs c a = false ->
  split c (a ++ b) =
  match split c b with
  | piece :: pieces => (a ++ piece)%string :: pieces
  | [] => [a]
  end.
Proof.
  induction a as [|d rest IH]; cbn.
  - intros _. destruct (split c b) eqn:E; [now apply split_nonempty in E | reflexivity].
  - intros H. apply orb_false_iff in H as [Hd Hrest].
    rewrite Hd, (IH Hrest). destruct (split c b); reflexivity.
Qed.

Lemma append_empty (s : string) : (s ++ "")%string = s.
Proof. induction s as [|d rest IH]; cbn; [reflexivity | now rewrite IH]. Qed.

(** X1.  The two [split] expressions of [handleSolve] take a data URL apart
    again: for a type without [,], [;] and [:] and base-64 data without [,],
    they give back the data and the type. *)
Theorem data_url_parts (mime data : string) :
  occurs "," mime = false -> occurs ";" mime = false -> occurs ":" mime = false ->
  occurs "," data = false ->
  base64Data (readAsDataURL mime data) = Some data
  /\ mimeType (readAsDataURL mime data) = Some mime.
Proof.
  intros Hcomma Hsemi Hcolon Hdata. unfold readAsDataURL. split.
  - unfold base64Data. cbn.
    rewrite (split_after_prefix "," mime _ Hcomma). cbn.
    rewrite (split_without "," data Hdata). reflexivity.
  - unfold mimeType. cbn.
    rewrite (split_after_prefix ";" mime _ Hsemi). cbn.
    destruct (split ";" data); cbn;
      rewrite append_empty, (split_without ":" mime Hcolon); reflexivity.
Qed.

Lemma data_url_parts_witness :
  base64Data (readAsDataURL "image/svg+xml" "PHN2Zy8+") = Some "PHN2Zy8+"
  /\ mimeType (readAsDataURL "image/svg+xml" "PHN2Zy8+") = Some "image/svg+xml".
Proof.
  apply (data_url_parts "image/svg+xml" "PHN2Zy8+"); reflexivity.
Defined.

(** ** Sessions that fail, are cleared, or overlap a new image *)

Section MoreSessions.

Variable JSON_parse : string -> option Value.

(** X2.  A [handleSolve] whose request fails, for whatever reason, ends at
    [error] with the one failure message; the error has been written to the
    console twice (by the client and by [handleSolve]), one request was sent,
    and the call is over: no solution is set and none is displayed. *)
Theorem failed_session_ends_at_error (w : World) (img : string) (o : Settled) :
  image (ui w) = Some img -> truthy_string img = true ->
  processingStage (ui w) = idle ->
  solution (ui w) = VNull ->
  client_throws JSON_parse o ->
  let i := length (tasks w) in
  exists w' e,
    run JSON_parse w [ClickSolve; TimerFired i; TimerFired i; RequestSettled i o] = Some w'
    /\ outcome (read_response JSON_parse "No response text" o) = Thrown e
    /\ ui w' = mkState (Some img) Types.error VNull (Some failure_message)
    /\ displayed_solution (ui w') = None
    /\ requests w' = requests w ++ [SolveRequest (mimeType img) (base64Data img)]
    /\ console w' = console w ++ [e; e]
    /\ tasks w' = tasks w.
Proof.
  intros Him Himg Hst Hso [e He] i. apply truthy_string_true in Himg.
  exists (mkWorld (mkState (Some img) Types.error (solution (ui w)) (Some failure_message))
            (readers w) (tasks w)
            (requests w ++ [SolveRequest (mimeType img) (base64Data img)])
            (console w ++ [e; e])), e.
  split; [now apply solve_session_refused|].
  cbn. rewrite Hso. repeat split. exact He.
Qed.

(** X3.  [clearImage] does not cancel a request that is out: when the answer
    comes after the clear, [handleSolve] goes on, and the page ends at
    [complete] with the solution set although no image is loaded. *)
Theorem clear_does_not_cancel
    (w : World) (ts : list Task) (img t : string) (v : Value) :
  tasks w = ts ++ [AfterRequest img] ->
  truthy_opt (image (ui w)) = true ->
  truthy_string t = true -> JSON_parse t = Some v ->
  run JSON_parse w
    [ClickClear; RequestSettled (length ts) (Responds (Some t)); TimerFired (length ts)]
  = Some (mkWorld (mkState None complete v None) (readers w) ts (requests w) (console w)).
Proof.
  destruct w as [[im st so er] rs ts0 rq co].
  cbn [ui image processingStage solution readers tasks requests console].
  intros -> Him Ht Hv. apply truthy_string_true in Ht.
  cbn [run]. unfold step at 1.
  cbn [ui image]. rewrite Him. unfold clearImage, with_ui.
  cbn [ui readers tasks requests console].
  rewrite (request_returned JSON_parse img _ v) by now apply read_response_parsed.
  rewrite timer_after_solving. reflexivity.
Qed.

(** X4.  A session sends the image it was started with: when the page is
    cleared and another image is loaded during the delays, the request that
    goes out still carries the parts of the first image. *)
Theorem session_sends_the_image_it_started_with
    (w : World) (img : string) (file : File) :
  image (ui w) = Some img -> truthy_string img = true ->
  processingStage (ui w) = idle ->
  startsWith "image/" (file_type file) = true ->
  let i := length (tasks w) in
  let k := length (readers w) in
  exists w',
    run JSON_parse w
      [ClickSolve; ClickClear; FileSelected file; ReaderLoaded k; TimerFired i; TimerFired i]
    = Some w'
    /\ image (ui w') = Some (file_dataURL file)
    /\ processingStage (ui w') = parsing
    /\ requests w' = requests w ++ [SolveRequest (mimeType img) (base64Data img)].
Proof.
  destruct w as [[im st so er] rs ts rq co].
  cbn [ui image processingStage solution readers tasks requests console].
  intros -> Himg -> Htype. cbv zeta. pose proof Himg as Himg'.
  apply truthy_string_true in Himg'.
  eexists. split.
  - cbn [run].
    rewrite (click_solve_idle JSON_parse img so er rs ts rq co Himg').
    unfold step at 1. cbn [ui image truthy_opt]. rewrite Himg.
    unfold clearImage, with_ui. cbn [ui readers tasks requests console].
    unfold step at 1. unfold processFile. rewrite Htype.
    unfold with_ui, with_readers. cbn [negb ui readers tasks requests console].
    unfold step at 1. unfold reader_onload.
    cbn [readers]. rewrite index_last.
    unfold with_readers, with_ui. cbn [ui readers tasks requests console].
    rewrite remove_nth_last.
    rewrite timer_after_preprocessing, timer_after_ocr. reflexivity.
  - cbn. auto.
Qed.

End MoreSessions.

Lemma failed_session_ends_at_error_witness :
  exists w' e,
    run Samples.JSON_parse Samples.png_loaded
      [ClickSolve; TimerFired 0; TimerFired 0; RequestSettled 0 (Responds (Some "oops"))]
    = Some w'
    /\ outcome (read_response Samples.JSON_parse "No response text" (Responds (Some "oops")))
       = Thrown e
    /\ ui w' = mkState (Some (file_dataURL Samples.png)) Types.error VNull
                 (Some failure_message)
    /\ displayed_solution (ui w') = None
    /\ requests w' = [] ++ [SolveRequest (mimeType (file_dataURL Samples.png))
                              (base64Data (file_dataURL Samples.png))]
    /\ console w' = [] ++ [e; e]
    /\ tasks w' = [].
Proof.
  apply (failed_session_ends_at_error Samples.JSON_parse Samples.png_loaded
           (file_dataURL Samples.png) (Responds (Some "oops")));
    try reflexivity.
  exists (SyntaxError "oops"). reflexivity.
Defined.

Lemma clear_does_not_cancel_witness :
  run Samples.JSON_parse Samples.request_out
    [ClickClear; RequestSettled 0 (Responds (Some Samples.conforming_text)); TimerFired 0]
  = Some (mkWorld (mkState None complete Samples.conforming None) [] []
            [SolveRequest (Some "image/png") (Some "iVBORw0KGgo=")] []).
Proof.
  apply (clear_does_not_cancel Samples.JSON_parse Samples.request_out []
           (file_dataURL Samples.png) Samples.conforming_text Samples.conforming);
    reflexivity.
Defined.

Lemma session_sends_the_image_it_started_with_witness :
  exists w',
    run Samples.JSON_parse Samples.png_loaded
      [ClickSolve; ClickClear; FileSelected Samples.jpeg; ReaderLoaded 0;
       TimerFired 0; TimerFired 0]
    = Some w'
    /\ image (ui w') = Some (file_dataURL Samples.jpeg)
    /\ processingStage (ui w') = parsing
    /\ requests w' = [] ++ [SolveRequest (mimeType (file_dataURL Samples.png))
                              (base64Data (file_dataURL Samples.png))].
Proof.
  apply (session_sends_the_image_it_started_with Samples.JSON_parse Samples.png_loaded
           (file_dataURL Samples.png) Samples.jpeg);
    reflexivity.
Defined.

(** ** What holds in every reachable state, sessions overlapping or not *)


Section EveryRun.

Variable JSON_parse : string -> option Value.




(** X6.  The network is used at one place only: a step sends a request
    exactly when it is the delay after [ocr] elapsing, and then the stage
    becomes [parsing] and the request carries the parts of the image the call
    was started with.  Picking a file, pressing Start or clear, and an answer
    coming in send nothing. *)
Theorem requests_are_sent_on_entering_parsing (w w' : World) (e : Event) :
  step JSON_parse w e = Some w' ->
  (requests w' = requests w
   /\ forall i img, e = TimerFired i -> index (tasks w) i <> Some (AfterOcr img))
  \/ (exists i img,
        e = TimerFired i
        /\ index (tasks w) i = Some (AfterOcr img)
        /\ requests w' = requests w ++ [SolveRequest (mimeType img) (base64Data img)]
        /\ processingStage (ui w') = parsing).
Proof.
  intros Hstep.
  destruct w as [[im st so er] rs ts rq co].
  destruct e as [file | i | | | i | i o];
    cbn [step ui image processingStage solution readers tasks requests console] in Hstep.
  - left. injection Hstep as <-. unfold processFile.
    destruct (startsWith "image/" (file_type file)); cbn; split; auto; discriminate.
  - left. unfold reader_onload in Hstep. cbn in Hstep.
    destruct (index rs i); [|discriminate]. injection Hstep as <-.
    cbn. split; auto; discriminate.
  - left. destruct (truthy_opt im && ProcessingStage_eqb st idle); [|discriminate].
    injection Hstep as <-. unfold handleSolve. cbn.
    destruct im as [img|]; [destruct (truthy_string img)|]; cbn; split; auto; discriminate.
  - left. destruct (truthy_opt im); [|discriminate]. injection Hstep as <-.
    cbn. split; auto; discriminate.
  - unfold handleSolve_resume in Hstep. cbn in Hstep.
    destruct (index ts i) as [[img | img | img | result]|] eqn:Htask; try discriminate;
      injection Hstep as <-.
    + left. cbn. split; auto. intros j img' [= <-]. rewrite Htask. discriminate.
    + right. exists i, img. cbn. auto.
    + left. cbn. split; auto. intros j img' [= <-]. rewrite Htask. discriminate.
  - left. unfold handleSolve_resume in Hstep. cbn in Hstep.
    destruct (index ts i) as [[img | img | img | result]|]; try discriminate.
    destruct (outcome (read_response JSON_parse "No response text" o));
      injection Hstep as <-; cbn; split; auto; discriminate.
Qed.


End EveryRun.


Lemma requests_are_sent_on_entering_parsing_witness :
  let w := mkWorld (mkState (Some (file_dataURL Samples.png)) ocr VNull None)
             [] [AfterOcr (file_dataURL Samples.png)] [] [] in
  (requests Samples.request_out = requests w
   /\ forall i img, TimerFired 0 = TimerFired i -> index (tasks w) i <> Some (AfterOcr img))
  \/ (exists i img,
        TimerFired 0 = TimerFired i
        /\ index (tasks w) i = Some (AfterOcr img)
        /\ requests Samples.request_out
           = requests w ++ [SolveRequest (mimeType img) (base64Data img)]
        /\ processingStage (ui Samples.request_out) = parsing).
Proof.
  apply (requests_are_sent_on_entering_parsing Samples.JSON_parse
           (mkWorld (mkState (Some (file_dataURL Samples.png)) ocr VNull None)
              [] [AfterOcr (file_dataURL Samples.png)] [] [])
           Samples.request_out (TimerFired 0)).
  reflexivity.
Defined.


(** ** What is rendered *)

Lemma StepItems_of_steps (steps : list Value) (idx : nat) :
  forallb is_Step steps = true ->
  exists items,
    SolutionDisplay.StepItems idx steps = Some items
    /\ map SolutionDisplay.step_index items = seq (idx + 1) (length steps)
    /\ map SolutionDisplay.step_latex items = map (prop "latex") steps
    /\ map SolutionDisplay.step_explanation items = map (prop "explanation") steps.
Proof.
  revert idx. induction steps as [|step rest IH]; intros idx Hall.
  - exists []. repeat split.
  - cbn [forallb] in Hall. apply andb_prop in Hall as [Hstep Hrest].
    destruct (IH (S idx) Hrest) as (items & Hitems & Hidx & Hlatex & Hexpl).
    cbn [SolutionDisplay.StepItems]. rewrite Hitems.
    destruct step as [| | | | | |fields]; try discriminate Hstep.
    unfold is_Step in Hstep.
    apply andb_prop in Hstep as [Hstep Hrule]. apply andb_prop in Hstep as [Hl He].
    unfold SolutionDisplay.StepItem.
    destruct (prop "explanation" (VObj fields)) as [| | | |expl| |] eqn:Eexpl;
      try discriminate He.
    destruct (prop "rule" (VObj fields)) as [| | | |rule| |] eqn:Erule;
      try discriminate Hrule; cbn [truthy SolutionDisplay.renderable andb].
    + eexists. split; [reflexivity|]. cbn [map length seq SolutionDisplay.step_index
        SolutionDisplay.step_latex SolutionDisplay.step_explanation].
      rewrite Hidx, Hlatex, Hexpl, Eexpl. repeat split.
    + destruct (negb (rule =? "")); cbn [andb];
        (eexists; split; [reflexivity|]);
        cbn [map length seq SolutionDisplay.step_index
             SolutionDisplay.step_latex SolutionDisplay.step_explanation];
        rewrite Hidx, Hlatex, Hexpl, Eexpl; repeat split.
Qed.

(** X8.  A value of type [MathSolution] always renders: [SolutionDisplay]
    shows as many steps as the payload has, in the payload's order,
    numbered from 1, each with its own expression and explanation; the main
    card shows [main_latex] and the last one [finalAnswer]. *)
Theorem conforming_solution_renders (solution : Value) :
  is_MathSolution solution = true ->
  exists steps view,
    prop "steps" solution = VArr steps
    /\ SolutionDisplay.render solution = Some view
    /\ map SolutionDisplay.step_index (SolutionDisplay.view_steps view)
       = seq 1 (length steps)
    /\ map SolutionDisplay.step_latex (SolutionDisplay.view_steps view)
       = map (prop "latex") steps
    /\ map SolutionDisplay.step_explanation (SolutionDisplay.view_steps view)
       = map (prop "explanation") steps
    /\ SolutionDisplay.view_main view = main_latex solution
    /\ SolutionDisplay.view_final view = prop "finalAnswer" solution.
Proof.
  destruct solution as [| | | | | |fields]; try discriminate.
  unfold is_MathSolution. intros H.
  repeat (apply andb_prop in H as [H ?]).
  destruct (prop "steps" (VObj fields)) as [| | | | |steps|] eqn:Esteps; try discriminate.
  destruct (StepItems_of_steps steps 0) as (items & Hitems & Hidx & Hlatex & Hexpl);
    [assumption|].
  exists steps. unfold SolutionDisplay.render. rewrite Esteps, Hitems.
  destruct (prop "problemType" (VObj fields)) as [| | | |ty| |]; try discriminate.
  cbn [SolutionDisplay.renderable].
  eexists. repeat split; cbn; assumption.
Qed.

Lemma conforming_solution_renders_witness :
  exists steps view,
    prop "steps" MoreSamples.two_steps = VArr steps
    /\ SolutionDisplay.render MoreSamples.two_steps = Some view
    /\ map SolutionDisplay.step_index (SolutionDisplay.view_steps view)
       = seq 1 (length steps)
    /\ map SolutionDisplay.step_latex (SolutionDisplay.view_steps view)
       = map (prop "latex") steps
    /\ map SolutionDisplay.step_explanation (SolutionDisplay.view_steps view)
       = map (prop "explanation") steps
    /\ SolutionDisplay.view_main view = main_latex MoreSamples.two_steps
    /\ SolutionDisplay.view_final view = prop "finalAnswer" MoreSamples.two_steps.
Proof.
  apply (conforming_solution_renders MoreSamples.two_steps). reflexivity.
Defined.

(** The two steps come out as STEP 1 and STEP 2, the badge on the second. *)
Example two_steps_rendered :
  option_map SolutionDisplay.view_steps (SolutionDisplay.render MoreSamples.two_steps)
  = Some [SolutionDisplay.mkStepView 1 None (VStr "Subtract 3") (VStr "2x=4");
          SolutionDisplay.mkStepView 2 (Some (VStr "Division")) (VStr "Divide by 2")
            (VStr "x=2")].
Proof. reflexivity. Qed.

(** X9.  What [handleSolve] publishes can be more than [SolutionDisplay] can
    show: when the response parses to a truthy value whose [steps] is not an
    array, the session ends at [complete], the value is handed to
    [SolutionDisplay], and rendering it throws. *)
Theorem published_payload_can_fail_to_render
    (JSON_parse : string -> option Value) (w : World) (img t : string) (v : Value) :
  image (ui w) = Some img -> truthy_string img = true ->
  processingStage (ui w) = idle ->
  truthy_string t = true -> JSON_parse t = Some v ->
  truthy v = true -> is_array (prop "steps" v) = false ->
  exists w',
    run JSON_parse w (solve_session (length (tasks w)) (Responds (Some t))) = Some w'
    /\ displayed_solution (ui w') = Some v
    /\ SolutionDisplay.render v = None.
Proof.
  intros Him Himg Hst Ht Hv Htruthy Hsteps.
  apply truthy_string_true in Himg. apply truthy_string_true in Ht.
  eexists. split; [now apply (solve_session_run JSON_parse w img t v)|].
  unfold displayed_solution, SolutionDisplay.render. cbn. rewrite Htruthy.
  split; [reflexivity|].
  destruct (prop "steps" v); try reflexivity. discriminate Hsteps.
Qed.

Lemma published_payload_can_fail_to_render_witness :
  exists w',
    run Samples.JSON_parse Samples.png_loaded
      (solve_session 0 (Responds (Some Samples.steps_not_array_text))) = Some w'
    /\ displayed_solution (ui w') = Some Samples.steps_not_array
    /\ SolutionDisplay.render Samples.steps_not_array = None.
Proof.
  apply (published_payload_can_fail_to_render Samples.JSON_parse Samples.png_loaded
           (file_dataURL Samples.png) Samples.steps_not_array_text Samples.steps_not_array);
    reflexivity.
Defined.

(** X10.  The pipeline strip is hidden at [idle] and at [error] and nowhere
    else.  Where it is shown, its four tiles are the four steps in order: the
    steps behind the stage are finished, the step of the stage is the current
    one, the steps ahead are pending; at [complete] all four are finished.
    The tile that bounces is the one coloured as current, and the muted colour
    of the [error] branch is never seen. *)
Theorem pipeline_tiles_are_ordered (stage : ProcessingStage) :
  (PipelineVisualizer.render stage = None <-> stage = idle \/ stage = Types.error)
  /\ forall tiles : list PipelineVisualizer.Tile,
       PipelineVisualizer.render stage = Some tiles ->
       map fst (map fst tiles) = PipelineVisualizer.step_ids
       /\ map PipelineVisualizer.status_of tiles
          = repeat PipelineVisualizer.Done (PipelineVisualizer.steps_behind stage)
            ++ (if ProcessingStage_eqb stage complete then []
                else [PipelineVisualizer.Current])
            ++ repeat PipelineVisualizer.Pending
                 (3 - PipelineVisualizer.steps_behind stage)
       /\ (ProcessingStage_eqb stage complete = true ->
           map PipelineVisualizer.status_of tiles
           = [PipelineVisualizer.Done; PipelineVisualizer.Done;
              PipelineVisualizer.Done; PipelineVisualizer.Done])
       /\ Forall (fun t => PipelineVisualizer.is_active t = true
                           <-> PipelineVisualizer.status_of t = PipelineVisualizer.Current)
                 tiles
       /\ Forall (fun t => PipelineVisualizer.status_of t <> PipelineVisualizer.Muted)
                 tiles.
Proof.
  split.
  - destruct stage; cbn; split; intros H; auto;
      try discriminate H; destruct H as [H | H]; discriminate H.
  - intros tiles.
    destruct stage; cbn [PipelineVisualizer.render ProcessingStage_eqb orb];
      try discriminate; intros [= <-];
      (split; [reflexivity|]); (split; [reflexivity|]);
      (split; [intros H; try discriminate H; reflexivity|]);
      split; repeat constructor; cbn; try discriminate;
      split; (reflexivity || discriminate).
Qed.

Lemma pipeline_tiles_are_ordered_witness :
  let tiles : list PipelineVisualizer.Tile :=
    [("preprocessing", PipelineVisualizer.Done, false);
     ("ocr", PipelineVisualizer.Done, false);
     ("parsing", PipelineVisualizer.Done, false);
     ("solving", PipelineVisualizer.Done, false)] in
  map fst (map fst tiles) = PipelineVisualizer.step_ids
  /\ map PipelineVisualizer.status_of tiles
     = repeat PipelineVisualizer.Done (PipelineVisualizer.steps_behind complete)
       ++ (if ProcessingStage_eqb complete complete then []
           else [PipelineVisualizer.Current])
       ++ repeat PipelineVisualizer.Pending (3 - PipelineVisualizer.steps_behind complete)
  /\ (ProcessingStage_eqb complete complete = true ->
      map PipelineVisualizer.status_of tiles
      = [PipelineVisualizer.Done; PipelineVisualizer.Done;
         PipelineVisualizer.Done; PipelineVisualizer.Done])
  /\ Forall (fun t => PipelineVisualizer.is_active t = true
                      <-> PipelineVisualizer.status_of t = PipelineVisualizer.Current)
            tiles
  /\ Forall (fun t => PipelineVisualizer.status_of t <> PipelineVisualizer.Muted) tiles.
Proof.
  apply (proj2 (pipeline_tiles_are_ordered complete)). reflexivity.
Defined.

(** The strip in the middle of a session. *)
Example pipeline_at_parsing :
  PipelineVisualizer.render parsing
  = Some [("preprocessing", PipelineVisualizer.Done, false);
          ("ocr", PipelineVisualizer.Done, false);
          ("parsing", PipelineVisualizer.Current, true);
          ("solving", PipelineVisualizer.Pending, false)].
Proof. reflexivity. Qed.

(** ** The client, whatever is asked *)

(** X18.  Each of the three client functions logs exactly what it throws,
    once, and logs nothing when it returns; and none of them refuses to ask,
    whatever its arguments. *)
Theorem client_logs_what_it_throws
    (JSON_parse : string -> option Value) (call : Call Value) (o : Settled) :
  (exists base64Image mime, call = solveMathProblem JSON_parse base64Image mime)
  \/ (exists difficulty, call = generatePracticeQuestion JSON_parse difficulty)
  \/ (exists question text picture mime,
        call = gradeAnswer JSON_parse question text picture mime) ->
  (exists request, requested call = Some request)
  /\ match outcome (settle call o) with
     | Returned _ => logged (settle call o) = []
     | Thrown e => logged (settle call o) = [e]
     end.
Proof.
  assert (Hread : forall failure,
             match outcome (read_response JSON_parse failure o) with
             | Returned _ => logged (read_response JSON_parse failure o) = []
             | Thrown e => logged (read_response JSON_parse failure o) = [e]
             end).
  { intros failure. destruct o as [reason | [t|]]; cbn; try reflexivity.
    destruct (truthy_string t); [destruct (JSON_parse t)|]; reflexivity. }
  intros [(b & m & ->) | [(d & ->) | (q & t & p & m & ->)]]; cbn [settle
    solveMathProblem generatePracticeQuestion gradeAnswer requested];
    (split; [eexists; reflexivity | apply Hread]).
Qed.

Lemma client_logs_what_it_throws_witness :
  (exists request,
      requested (gradeAnswer Samples.JSON_parse (VStr "2x+3=7") "" None None) = Some request)
  /\ match outcome (settle (gradeAnswer Samples.JSON_parse (VStr "2x+3=7") "" None None)
                      (Responds (Some ""))) with
     | Returned _ =>
         logged (settle (gradeAnswer Samples.JSON_parse (VStr "2x+3=7") "" None None)
                   (Responds (Some ""))) = []
     | Thrown e =>
         logged (settle (gradeAnswer Samples.JSON_parse (VStr "2x+3=7") "" None None)
                   (Responds (Some ""))) = [e]
     end.
Proof.
  apply (client_logs_what_it_throws Samples.JSON_parse
           (gradeAnswer Samples.JSON_parse (VStr "2x+3=7") "" None None)
           (Responds (Some ""))).
  right. right. exists (VStr "2x+3=7"), "", None, None. reflexivity.
Defined.

(** ** More on the practice round *)

Section MoreRounds.

Import PracticeMode.

Variable JSON_parse : string -> option Value.

(** [trim] leaves nothing of a text made of one-byte white space. *)
Lemma trimStart_blank (s : string) : only_spaces s = true -> trimStart s = "".
Proof.
  induction s as [|c rest IH]; [reflexivity|].
  cbn [only_spaces trimStart]. intros H. apply andb_prop in H as [Hc Hrest].
  rewrite Hc. now apply IH.
Qed.

Lemma trim_blank (s : string) : only_spaces s = true -> trim s = "".
Proof. intros H. unfold trim. now rewrite (trimStart_blank s H). Qed.

(** The white space of two and three bytes has no byte below 128. *)
Lemma is_space2_high (c1 c2 : ascii) :
  is_space2 c1 c2 = true ->
  (nat_of_ascii c1 <? 128)%nat = false /\ (nat_of_ascii c2 <? 128)%nat = false.
Proof.
  unfold is_space2. intros H. apply andb_prop in H as [H1 H2].
  apply Nat.eqb_eq in H1, H2. rewrite H1, H2. split; reflexivity.
Qed.

Lemma is_space3_high (c1 c2 c3 : ascii) :
  is_space3 c1 c2 c3 = true ->
  (nat_of_ascii c1 <? 128)%nat = false
  /\ (nat_of_ascii c2 <? 128)%nat = false
  /\ (nat_of_ascii c3 <? 128)%nat = false.
Proof.
  unfold is_space3. intros H. rewrite !Nat.ltb_ge.
  repeat (apply orb_prop in H as [H | H]);
    repeat match goal with
           | E : (_ && _)%bool = true |- _ => apply andb_prop in E as [? ?]
           | E : (_ || _)%bool = true |- _ => apply orb_prop in E as [? | ?]
           | E : (_ =? _)%nat = true |- _ => apply Nat.eqb_eq in E
           | E : (_ <=? _)%nat = true |- _ => apply Nat.leb_le in E
           end; lia.
Qed.

(** [trimStart] never eats a visible character. *)
Lemma trimStart_visible (n : nat) (s : string) :
  String.length s <= n -> has_visible s = true -> has_visible (trimStart s) = true.
Proof.
  revert s. induction n as [|n IH]; intros s Hlen Hvis.
  - destruct s; [discriminate Hvis | cbn in Hlen; lia].
  - destruct s as [|c1 rest1]; [discriminate Hvis|].
    cbn [trimStart]. cbn [String.length] in Hlen.
    destruct (is_space c1) eqn:H1.
    { apply IH; [lia|]. cbn [has_visible] in Hvis. now rewrite H1 in Hvis. }
    destruct rest1 as [|c2 rest2]; [exact Hvis|]. cbn [String.length] in Hlen.
    destruct (is_space2 c1 c2) eqn:H2.
    { apply IH; [lia|]. destruct (is_space2_high c1 c2 H2) as [Ha Hb].
      cbn [has_visible] in Hvis. now rewrite Ha, Hb, !andb_false_r in Hvis. }
    destruct rest2 as [|c3 rest3]; [exact Hvis|]. cbn [String.length] in Hlen.
    destruct (is_space3 c1 c2 c3) eqn:H3; [|exact Hvis].
    apply IH; [lia|]. destruct (is_space3_high c1 c2 c3 H3) as (Ha & Hb & Hc).
    cbn [has_visible] in Hvis. now rewrite Ha, Hb, Hc, !andb_false_r in Hvis.
Qed.

(** [trim] leaves something of a text that holds a visible character. *)
Lemma trim_visible (s : string) : has_visible s = true -> trim s <> "".
Proof.
  intros Hvis. unfold trim.
  pose proof (trimStart_visible (String.length s) s (le_n _) Hvis) as Hkept.
  destruct (trimStart s) as [|c rest]; [discriminate Hkept|].
  pose proof (trimStart_visible _ _ (le_n _) Hkept) as Hagain.
  cbn [trimEnd]. destruct (trimStart (String c rest)); [discriminate Hagain | discriminate].
Qed.

Lemma has_visible_nonempty (s : string) : has_visible s = true -> s <> "".
Proof. intros H ->. discriminate H. Qed.

(** A no-break space, a line separator and a byte order mark around the
    text are stripped like the space; a zero-width space is not. *)
Example trim_strips_wide_spaces :
  let byte n := ascii_of_nat n in
  let text bytes := string_of_list_ascii (map byte bytes) in
  trim (text [194; 160; 226; 128; 168; 120; 32; 239; 187; 191]) = "x"
  /\ trim (text [194; 160; 32; 227; 128; 128]) = ""
  /\ trim (text [226; 128; 139]) = text [226; 128; 139].
Proof. repeat split. Qed.

(** X12.  An answer made of white space only, with no picture, is no answer:
    [handleSubmit] returns at once, and so do the send button and the Enter
    key; nothing is sent. *)
Theorem blank_answer_is_not_sent (o : Settled) (w : World) :
  only_spaces (userAnswer (ui w)) = true ->
  truthy_opt (answerImage (ui w)) = false ->
  handleSubmit JSON_parse o w = w
  /\ click_submit JSON_parse o w = w
  /\ press_enter JSON_parse o w = w.
Proof.
  intros Hblank Hpic. apply trim_blank in Hblank.
  assert (Hsubmit : handleSubmit JSON_parse o w = w).
  { unfold handleSubmit, handleSubmit_begin, handleSubmit_returns_early.
    rewrite Hblank, Hpic. cbn. now rewrite orb_true_r. }
  repeat split; [exact Hsubmit | |].
  - unfold click_submit, submit_disabled. rewrite Hblank, Hpic. reflexivity.
  - unfold press_enter. now destruct (input_disabled (ui w)).
Qed.

(** X13.  A typed answer goes out as typed: with a question on the page, a
    text holding at least one visible character and no picture,
    [handleSubmit] sends one grading request carrying [question.latex] and
    the text as it stands, surrounding spaces included, and neither picture
    nor mention of one. *)
Theorem typed_answer_is_sent_as_typed (o : Settled) (w : World) :
  truthy (question (ui w)) = true ->
  has_visible (userAnswer (ui w)) = true ->
  answerImage (ui w) = None ->
  requests (handleSubmit JSON_parse o w)
  = requests w ++ [GradeRequest (prop "latex" (question (ui w)))
                     (Some (userAnswer (ui w))) false None].
Proof.
  intros Hq Htext Hpic.
  assert (Htrim : truthy_string (trim (userAnswer (ui w))) = true).
  { apply truthy_string_true. now apply trim_visible. }
  apply has_visible_nonempty, truthy_string_true in Htext.
  destruct w as [[q l a img g ig d] rq co un]. cbn in *. subst img.
  unfold handleSubmit, handleSubmit_begin, handleSubmit_returns_early,
    handleSubmit_resume. cbn. rewrite Hq, Htrim. cbn. rewrite Htext.
  destruct (outcome _); reflexivity.
Qed.

(** X11.  A picture picked for the answer reaches the service: for an image
    file whose data URL is the one of type [mime] and data [data],
    [handleImageSelect] starts a reader, and once it has loaded,
    [handleSubmit] sends a request that mentions the picture and carries it
    as inline data of that type, the typed text going along when there is
    one. *)
Theorem picked_picture_is_sent
    (o : Settled) (w : World) (file : App.File) (others : list App.File)
    (mime data : string) :
  startsWith "image/" (App.file_type file) = true ->
  App.file_dataURL file = readAsDataURL mime data ->
  occurs "," mime = false -> occurs ";" mime = false -> occurs ":" mime = false ->
  occurs "," data = false ->
  truthy_string mime = true -> truthy_string data = true ->
  truthy (question (ui w)) = true ->
  handleImageSelect (file :: others) = Some file
  /\ requests (handleSubmit JSON_parse o (answer_reader_onload file w))
     = requests w ++ [GradeRequest (prop "latex" (question (ui w)))
                        (if userAnswer (ui w) =? "" then None
                         else Some (userAnswer (ui w)))
                        true (Some (mime, data))].
Proof.
  intros Htype Hurl Hc Hs Hk Hd Hmime Hdata Hq.
  destruct (data_url_parts mime data Hc Hs Hk Hd) as [Hb Hm].
  unfold App.base64Data in Hb. unfold App.mimeType in Hm.
  split; [unfold handleImageSelect; now rewrite Htype|].
  destruct w as [[q l a img g ig d] rq co un]. cbn in Hq.
  unfold answer_reader_onload, handleSubmit, handleSubmit_begin,
    handleSubmit_returns_early, handleSubmit_resume, grade_call.
  cbn [with_ui ui setAnswerImage question userAnswer answerImage requests
       setIsGrading loading grading isGrading difficulty console unhandled].
  rewrite Hurl, Hq.
  assert (Hnonempty : truthy_string (readAsDataURL mime data) = true) by reflexivity.
  cbn [truthy_opt negb orb andb]. rewrite Hnonempty. rewrite andb_false_r.
  cbn [negb orb andb fst snd]. rewrite Hb, Hm.
  unfold gradeAnswer, ask, send. cbn [requested truthy_opt requests ui settle].
  rewrite Hmime, Hdata. cbn [andb].
  unfold truthy_string. destruct (a =? ""); cbn [negb];
    destruct (outcome _); reflexivity.
Qed.

(** X14.  After [fetchQuestion], however its request ended, nothing can be
    sent before an answer is entered: the send button and the Enter key
    leave everything as it is. *)
Theorem new_round_waits_for_an_answer (o o' : Settled) (w : World) :
  click_submit JSON_parse o' (fetchQuestion JSON_parse o w) = fetchQuestion JSON_parse o w
  /\ press_enter JSON_parse o' (fetchQuestion JSON_parse o w)
     = fetchQuestion JSON_parse o w.
Proof.
  destruct w as [[q l a img g ig d] rq co un].
  unfold fetchQuestion, fetchQuestion_begin, fetchQuestion_resume. cbn.
  destruct (read_response JSON_parse "Failed to generate question" o) as [lg [q'|e]];
    cbn; unfold click_submit, press_enter, submit_disabled, input_disabled,
           handleSubmit, handleSubmit_begin, handleSubmit_returns_early;
    cbn; rewrite ?orb_true_r; cbn; destruct ig; split; reflexivity.
Qed.

End MoreRounds.

Section Grading.

Import PracticeMode.

Variable JSON_parse : string -> option Value.

(** X15.  A grading that succeeds ends the round only if the payload is
    truthy: [handleSubmit] stores whatever the response parsed to; with a
    truthy value the send button and the Enter key do nothing from then on,
    and with a falsy one ([null], say) both stay enabled and the same answer
    can be sent again. *)
Theorem graded_round_is_closed_by_a_truthy_grading
    (o o' : Settled) (w : World) (result : Value) :
  handleSubmit_returns_early (ui w) = false ->
  loading (ui w) = false ->
  outcome (settle (grade_call JSON_parse (ui w)) o) = Returned result ->
  let w' := handleSubmit JSON_parse o w in
  grading (ui w') = result
  /\ isGrading (ui w') = false
  /\ (truthy result = true ->
      click_submit JSON_parse o' w' = w' /\ press_enter JSON_parse o' w' = w')
  /\ (truthy result = false ->
      submit_disabled (ui w') = false
      /\ input_disabled (ui w') = false
      /\ exists request,
           requested (grade_call JSON_parse (ui w)) = Some request
           /\ requests (click_submit JSON_parse o' w') = requests w' ++ [request]).
Proof.
  intros Hearly Hload Hout w'.
  destruct w as [[q l a img g ig d] rq co un].
  cbn [ui loading] in Hearly, Hload, Hout. subst l.
  pose proof Hearly as Hguard.
  unfold handleSubmit_returns_early in Hguard. cbn in Hguard.
  apply orb_false_iff in Hguard as [Hq Hanswer].
  remember (handleSubmit JSON_parse o _) as w1 eqn:Hw1 in w'.
  unfold handleSubmit, handleSubmit_begin in Hw1. cbn [ui] in Hw1.
  rewrite Hearly in Hw1. unfold handleSubmit_resume in Hw1. cbn [ui] in Hw1.
  rewrite Hout in Hw1. cbn in Hw1. subst w1 w'.
  cbn [ui grading isGrading requests].
  split; [reflexivity|]. split; [reflexivity|]. split.
  - intros Htruthy. unfold click_submit, press_enter, submit_disabled, input_disabled.
    cbn. rewrite Htruthy, !orb_true_r. auto.
  - intros Hfalsy. split; [|split].
    + unfold submit_disabled. cbn. now rewrite Hanswer, Hfalsy.
    + unfold input_disabled. cbn. exact Hfalsy.
    + eexists. split; [reflexivity|].
      unfold click_submit, submit_disabled. cbn. rewrite Hanswer, Hfalsy. cbn.
      unfold handleSubmit, handleSubmit_begin, handleSubmit_returns_early. cbn.
      rewrite Hq, Hanswer. cbn.
      unfold handleSubmit_resume. cbn.
      match goal with
      | |- context [outcome ?c] => destruct (outcome c)
      end; reflexivity.
Qed.

End Grading.

Section LevelChanges.

Import PracticeMode.

Variable JSON_parse : string -> option Value.

(** X16.  When the question asked for by a change of level does not come,
    nothing handles the failure: the question on the page stays, [loading]
    stays raised, so the send button and the Enter key are dead, and the
    rejection is left unhandled; a [fetchQuestion] afterwards lowers
    [loading] again, however it ends. *)
Theorem lost_level_change_keeps_loading
    (level : Difficulty) (o : Settled) (w : World) (e : Error) :
  difficulty (ui w) <> level ->
  untouched (ui w) ->
  outcome (settle (generatePracticeQuestion JSON_parse (Difficulty_value level)) o)
  = Thrown e ->
  let w' := handleDifficultyChange JSON_parse level o w in
  loading (ui w') = true
  /\ question (ui w') = question (ui w)
  /\ difficulty (ui w') = level
  /\ unhandled w' = unhandled w ++ [e]
  /\ (forall o', click_submit JSON_parse o' w' = w' /\ press_enter JSON_parse o' w' = w')
  /\ (forall o', loading (ui (fetchQuestion JSON_parse o' w')) = false).
Proof.
  intros Hlevel (Hg & Hu & Hi) Hout w'.
  apply Difficulty_eqb_neq in Hlevel.
  destruct w as [[q l a img g ig d] rq co un]. cbn in Hlevel, Hg, Hu, Hi. subst g a img.
  remember (handleDifficultyChange JSON_parse level o _) as w1 eqn:Hw1 in w'.
  unfold handleDifficultyChange, handleDifficultyChange_begin in Hw1.
  cbn [ui difficulty] in Hw1. rewrite Hlevel in Hw1. cbn in Hw1.
  unfold handleDifficultyChange_resume in Hw1. rewrite Hout in Hw1.
  cbn in Hw1. subst w1 w'. cbn.
  repeat split.
Qed.

Lemma handleDifficultyChange_sets_level (level : Difficulty) (o : Settled) (w : World) :
  difficulty (ui (handleDifficultyChange JSON_parse level o w)) = level.
Proof.
  unfold handleDifficultyChange, handleDifficultyChange_begin.
  destruct (Difficulty_eqb (difficulty (ui w)) level) eqn:Hsame.
  - destruct (difficulty (ui w)), level; try discriminate Hsame; reflexivity.
  - destruct (_ && _ && _); [|reflexivity].
    unfold handleDifficultyChange_resume.
    destruct (outcome _); reflexivity.
Qed.

(** X17.  Choosing the same level again changes nothing and asks nothing:
    [handleDifficultyChange] applied twice with one level is the same as
    applied once, however the requests end. *)
Theorem handleDifficultyChange_twice (level : Difficulty) (o o' : Settled) (w : World) :
  handleDifficultyChange JSON_parse level o'
    (handleDifficultyChange JSON_parse level o w)
  = handleDifficultyChange JSON_parse level o w.
Proof.
  pose proof (handleDifficultyChange_sets_level level o w) as Hset.
  remember (handleDifficultyChange JSON_parse level o w) as w1.
  unfold handleDifficultyChange at 1. unfold handleDifficultyChange_begin.
  rewrite Hset. now destruct level.
Qed.

End LevelChanges.

(** *** The further properties of the round on sample data *)

Lemma blank_answer_is_not_sent_witness :
  PracticeMode.handleSubmit Samples.JSON_parse (Responds (Some Samples.graded_text))
    MoreSamples.spaces_typed = MoreSamples.spaces_typed
  /\ PracticeMode.click_submit Samples.JSON_parse (Responds (Some Samples.graded_text))
       MoreSamples.spaces_typed = MoreSamples.spaces_typed
  /\ PracticeMode.press_enter Samples.JSON_parse (Responds (Some Samples.graded_text))
       MoreSamples.spaces_typed = MoreSamples.spaces_typed.
Proof.
  apply (blank_answer_is_not_sent Samples.JSON_parse
           (Responds (Some Samples.graded_text)) MoreSamples.spaces_typed);
    reflexivity.
Defined.

Lemma typed_answer_is_sent_as_typed_witness :
  PracticeMode.requests
    (PracticeMode.handleSubmit Samples.JSON_parse (Responds (Some Samples.graded_text))
       (PracticeMode.with_ui (PracticeMode.setUserAnswer " x=2 ") Samples.fresh_round))
  = [] ++ [GradeRequest (VStr "2x+3=7") (Some " x=2 ") false None].
Proof.
  apply (typed_answer_is_sent_as_typed Samples.JSON_parse
           (Responds (Some Samples.graded_text))
           (PracticeMode.with_ui (PracticeMode.setUserAnswer " x=2 ") Samples.fresh_round));
    reflexivity.
Defined.

Lemma picked_picture_is_sent_witness :
  PracticeMode.handleImageSelect [MoreSamples.scan] = Some MoreSamples.scan
  /\ PracticeMode.requests
       (PracticeMode.handleSubmit Samples.JSON_parse (Responds (Some Samples.graded_text))
          (PracticeMode.answer_reader_onload MoreSamples.scan Samples.fresh_round))
     = [] ++ [GradeRequest (VStr "2x+3=7") None true
                (Some ("image/jpeg", "/9j/4AAQSkZJRg=="))].
Proof.
  apply (picked_picture_is_sent Samples.JSON_parse (Responds (Some Samples.graded_text))
           Samples.fresh_round MoreSamples.scan [] "image/jpeg" "/9j/4AAQSkZJRg==");
    reflexivity.
Defined.

Lemma graded_round_is_closed_by_a_truthy_grading_witness :
  let w' := PracticeMode.handleSubmit MoreSamples.JSON_parse (Responds (Some "null"))
              Samples.answered_round in
  PracticeMode.grading (PracticeMode.ui w') = VNull
  /\ PracticeMode.isGrading (PracticeMode.ui w') = false
  /\ (truthy VNull = true ->
      PracticeMode.click_submit MoreSamples.JSON_parse (Responds (Some Samples.graded_text)) w'
      = w'
      /\ PracticeMode.press_enter MoreSamples.JSON_parse
           (Responds (Some Samples.graded_text)) w' = w')
  /\ (truthy VNull = false ->
      PracticeMode.submit_disabled (PracticeMode.ui w') = false
      /\ PracticeMode.input_disabled (PracticeMode.ui w') = false
      /\ exists request,
           requested (PracticeMode.grade_call MoreSamples.JSON_parse
                        (PracticeMode.ui Samples.answered_round)) = Some request
           /\ PracticeMode.requests
                (PracticeMode.click_submit MoreSamples.JSON_parse
                   (Responds (Some Samples.graded_text)) w')
              = PracticeMode.requests w' ++ [request]).
Proof.
  apply (graded_round_is_closed_by_a_truthy_grading MoreSamples.JSON_parse
           (Responds (Some "null")) (Responds (Some Samples.graded_text))
           Samples.answered_round VNull);
    reflexivity.
Defined.

Lemma lost_level_change_keeps_loading_witness :
  let w' := PracticeMode.handleDifficultyChange Samples.JSON_parse Hard
              (Responds None) Samples.fresh_round in
  PracticeMode.loading (PracticeMode.ui w') = true
  /\ PracticeMode.question (PracticeMode.ui w') = Samples.q1
  /\ PracticeMode.difficulty (PracticeMode.ui w') = Hard
  /\ PracticeMode.unhandled w' = [] ++ [ErrorMsg "Failed to generate question"]
  /\ (forall o', PracticeMode.click_submit Samples.JSON_parse o' w' = w'
                 /\ PracticeMode.press_enter Samples.JSON_parse o' w' = w')
  /\ (forall o', PracticeMode.loading
                   (PracticeMode.ui (PracticeMode.fetchQuestion Samples.JSON_parse o' w'))
                 = false).
Proof.
  apply (lost_level_change_keeps_loading Samples.JSON_parse Hard (Responds None)
           Samples.fresh_round (ErrorMsg "Failed to generate question")).
  - discriminate.
  - repeat split.
  - reflexivity.
Defined.
